(** * Image compressor service: request handlers, option mapping and auth gate

    A shallow embedding of [src/server.ts], [src/middleware/auth.ts] and
    the logger's [logRequest] as far as a handler can see it fail.
    The handlers are modelled as computations over an explicit trace of the
    calls they make to the image library (sharp), to [Buffer] and to
    [JSON.parse]; exceptions and early [return]s after a reply are outcomes
    of the computation, and the [try]/[catch] of each handler turns an
    exception into a 500 reply. *)

From Stdlib Require Import String Ascii List NArith ZArith QArith Lia Bool.
From Stdlib Require Import Strings.Byte.
Import ListNotations.

Set Warnings "-register-all".

Local Open Scope string_scope.

(* ===================================================================== *)
(** ** JavaScript values as the handlers see them *)
(* ===================================================================== *)

Module Js.

(** A parsed request body: what [express.json], [express.urlencoded],
    multer and [JSON.parse] hand to the handlers.  [JNum] carries the value
    of a finite double; [JUndefined] is what reading a missing key gives. *)
Inductive JsVal : Type :=
| JUndefined
| JNull
| JBool (b : bool)
| JNum (q : Q)
| JStr (s : string)
| JArr (items : list JsVal)
| JObj (fields : list (string * JsVal)).

(** ToBoolean: [undefined], [null], [false], [0] and [""] are falsy. *)
Definition truthy (v : JsVal) : bool :=
  match v with
  | JUndefined | JNull => false
  | JBool b => b
  | JNum q => negb (Qnum q =? 0)%Z
  | JStr s => negb (s =? "")
  | JArr _ | JObj _ => true
  end.

Definition nullish (v : JsVal) : bool :=
  match v with
  | JUndefined | JNull => true
  | _ => false
  end.

Fixpoint lookup (key : string) (fields : list (string * JsVal)) : JsVal :=
  match fields with
  | [] => JUndefined
  | (k, v) :: rest => if k =? key then v else lookup key rest
  end.

(** [v.key] for a value that is neither [null] nor [undefined].  The keys
    the service reads (image, format, options, resize, quality, ...) are
    never an index, [length] or a prototype property, so only objects
    answer with something else than [undefined]. *)
Definition member (v : JsVal) (key : string) : JsVal :=
  match v with
  | JObj fields => lookup key fields
  | _ => JUndefined
  end.

(** [a || b] *)
Definition or_else (a b : JsVal) : JsVal := if truthy a then a else b.

(** The default of a destructuring pattern, [{ x = d }]: used only when
    the property is [undefined]. *)
Definition default_to (a d : JsVal) : JsVal :=
  match a with
  | JUndefined => d
  | _ => a
  end.

(** [v === true], [v === false] and [v === "s"] *)
Definition strictly_true (v : JsVal) : bool :=
  match v with JBool true => true | _ => false end.

Definition strictly_false (v : JsVal) : bool :=
  match v with JBool false => true | _ => false end.

Definition is_string (v : JsVal) (s : string) : bool :=
  match v with JStr t => t =? s | _ => false end.

Fixpoint join (sep : string) (parts : list string) : string :=
  match parts with
  | [] => ""
  | [p] => p
  | p :: rest => p ++ sep ++ join sep rest
  end.

(** ToString, as a template literal and [JSON.parse] apply it, of a value
    that can be converted ([cannot_convert] below tells which cannot); the
    digits of a number are the engine's business. *)
Fixpoint to_string (number_to_string : Q -> string) (v : JsVal) : string :=
  match v with
  | JUndefined => "undefined"
  | JNull => "null"
  | JBool true => "true"
  | JBool false => "false"
  | JNum q => number_to_string q
  | JStr s => s
  | JArr items =>
      join ","
        (map (fun item => if nullish item then ""
                          else to_string number_to_string item) items)
  | JObj _ => "[object Object]"
  end.

Fixpoint has_key (key : string) (fields : list (string * JsVal)) : bool :=
  match fields with
  | [] => false
  | (k, _) :: rest => (k =? key) || has_key key rest
  end.

(** ToPrimitive throws a TypeError, for either hint: a parsed object never
    holds a function, so an own [toString] key hides the inherited method
    and [valueOf] only gives the object back; an object built without a
    prototype ([bare], as multer builds them) has no method at all.  An
    array converts through [join], element by element. *)
Fixpoint cannot_convert (bare : JsVal -> bool) (v : JsVal) : bool :=
  match v with
  | JObj fields => has_key "toString" fields || bare v
  | JArr items =>
      existsb (fun item => if nullish item then false
                           else cannot_convert bare item) items
  | _ => false
  end.

(** [v.length] for a truthy value: the length of a string or an array, an
    object's own [length] key, [undefined] for a number or a boolean. *)
Definition length_of (v : JsVal) : JsVal :=
  match v with
  | JStr s => JNum (inject_Z (Z.of_nat (String.length s)))
  | JArr items => JNum (inject_Z (Z.of_nat (List.length items)))
  | JObj fields => lookup "length" fields
  | _ => JUndefined
  end.

End Js.

Export Js.

(* ===================================================================== *)
(** ** Base64 as [Buffer] speaks it *)
(* ===================================================================== *)

Module Base64.

Local Open Scope N_scope.

Definition alphabet : string :=
  "ABCDEFGHIJKLMNOPQRSTUVWXYZabcdefghijklmnopqrstuvwxyz0123456789+/".

Definition pad : ascii := "="%char.

Definition digit (n : N) : ascii :=
  match String.get (N.to_nat n) alphabet with
  | Some c => c
  | None => pad
  end.

Fixpoint index_of (c : ascii) (s : string) (i : N) : option N :=
  match s with
  | EmptyString => None
  | String d s' => if Ascii.eqb c d then Some i else index_of c s' (i + 1)
  end.

(** The decoder also reads the URL-safe digits. *)
Definition unbase64 (c : ascii) : option N :=
  if Ascii.eqb c "-"%char then Some 62
  else if Ascii.eqb c "_"%char then Some 63
  else index_of c alphabet 0.

(** Storing into a byte array keeps the low eight bits. *)
Definition byte_of_N (n : N) : byte :=
  match Byte.of_N (n mod 256) with
  | Some b => b
  | None => x00
  end.

Definition group3 (a b c : byte) : N :=
  Byte.to_N a * 65536 + Byte.to_N b * 256 + Byte.to_N c.

(** [buffer.toString("base64")]: 24-bit groups as four digits, the last
    group padded with [=]. *)
Fixpoint encode (bs : list byte) : string :=
  match bs with
  | [] => ""
  | [a] =>
      let n := Byte.to_N a * 16 in
      String (digit (n / 64)) (String (digit (n mod 64)) "==")
  | [a; b] =>
      let n := (Byte.to_N a * 256 + Byte.to_N b) * 4 in
      String (digit (n / 4096))
        (String (digit (n / 64 mod 64)) (String (digit (n mod 64)) "="))
  | a :: b :: c :: rest =>
      let n := group3 a b c in
      String (digit (n / 262144))
        (String (digit (n / 4096 mod 64))
           (String (digit (n / 64 mod 64))
              (String (digit (n mod 64)) (encode rest))))
  end.

(** The digits of a string: characters outside the alphabet are skipped
    and the first [=] ends the input. *)
Fixpoint sextets (s : string) : list N :=
  match s with
  | EmptyString => []
  | String c s' =>
      match unbase64 c with
      | Some n => n :: sextets s'
      | None => if Ascii.eqb c pad then [] else sextets s'
      end
  end.

Fixpoint decode_groups (l : list N) : list byte :=
  match l with
  | s0 :: s1 :: s2 :: s3 :: rest =>
      let n := s0 * 262144 + s1 * 4096 + s2 * 64 + s3 in
      byte_of_N (n / 65536) :: byte_of_N (n / 256) :: byte_of_N n
        :: decode_groups rest
  | [s0; s1; s2] =>
      let n := (s0 * 4096 + s1 * 64 + s2) / 4 in
      [byte_of_N (n / 256); byte_of_N n]
  | [s0; s1] => [byte_of_N ((s0 * 64 + s1) / 16)]
  | _ => []
  end.

(** [Buffer.from(s, "base64")]: never fails on a string. *)
Definition decode (s : string) : list byte := decode_groups (sextets s).

End Base64.

(* ===================================================================== *)
(** ** The image library's interface *)
(* ===================================================================== *)

Module Sharp.

Inductive Fit := fill | inside | cover.
Inductive Kernel := lanczos3 | mitchell | cubic.

(** The object handed to [resize]; a key that was never assigned is
    [None]. *)
Record ResizeOptions := {
  width : option JsVal;
  height : option JsVal;
  fit : option Fit;
  kernel : option Kernel
}.

(** Modelled from the spec: the library's own defaults for a resize option
    that is left out ("cover is the default", "default lanczos3"); sharp is
    a dependency, not part of the repository. *)
Definition default_fit : Fit := cover.
Definition default_kernel : Kernel := lanczos3.

Definition fit_in_effect (o : ResizeOptions) : Fit :=
  match fit o with Some f => f | None => default_fit end.

Definition kernel_in_effect (o : ResizeOptions) : Kernel :=
  match kernel o with Some k => k | None => default_kernel end.

Module Jpeg.
Record Options := {
  quality : JsVal;
  progressive : bool;
  mozjpeg : bool
}.
End Jpeg.

Module Webp.
Record Options := {
  quality : JsVal;
  lossless : bool;
  nearLossless : bool;
  smartSubsample : bool;
  effort : JsVal
}.
End Webp.

Module Avif.
Record Options := {
  quality : JsVal;
  lossless : bool;
  effort : JsVal
}.
End Avif.

Module Png.
Record Options := {
  compressionLevel : JsVal;
  progressive : bool;
  effort : JsVal
}.
End Png.

Inductive Encoder :=
| jpeg (o : Jpeg.Options)
| webp (o : Webp.Options)
| avif (o : Avif.Options)
| png (o : Png.Options).

(** A pipeline under construction: [sharp(input).resize(..).jpeg(..)]. *)
Record Instance := {
  input : list byte;
  resizing : option ResizeOptions;
  output : option Encoder
}.

End Sharp.

(** Everything the handlers call that is not this repository's code.  A
    [Some message] or [inl message] is an [Error] thrown (or a promise
    rejected) with that message. *)
Record Runtime := {
  number_to_string : Q -> string;
  type_error : JsVal -> string -> string;
  lacks_prototype : JsVal -> bool;
  conversion_error : JsVal -> string;
  buffer_from_other : JsVal -> string + list byte;
  json_parse : string -> option JsVal;
  sharp_rejects_input : list byte -> option string;
  sharp_rejects_resize : Sharp.ResizeOptions -> option string;
  sharp_rejects_encoder : Sharp.Encoder -> option string;
  sharp_metadata : Sharp.Instance -> string + JsVal * JsVal;
  sharp_to_buffer : Sharp.Instance -> string + list byte
}.

(* ===================================================================== *)
(** ** Replies, traces and handler computations *)
(* ===================================================================== *)

Inductive Body :=
| HealthBody (status service : string)
| ErrorBody (error : string)
| ImageInfoBody (width height : JsVal)
| CompressBody (image : string) (size : nat) (format : JsVal)
| BinaryBody (contentType : string) (contentLength : nat) (data : list byte).

Record Response := { status : nat; payload : Body }.

Definition json (code : nat) (b : Body) : Response :=
  {| status := code; payload := b |}.

Inductive Event :=
| BufferFrom (v : JsVal)
| SharpInput (buf : list byte)
| SharpMetadata
| SharpResize (o : Sharp.ResizeOptions)
| SharpEncoder (e : Sharp.Encoder)
| SharpToBuffer
| BufferToString (buf : list byte)
| JsonParse (s : string).

Inductive Outcome (A : Type) :=
| Value (a : A)
| Thrown (message : string)
| Replied (r : Response).

Arguments Value {A} a.
Arguments Thrown {A} message.
Arguments Replied {A} r.

Definition M (A : Type) : Type := list Event -> Outcome A * list Event.

Definition ret {A} (a : A) : M A := fun t => (Value a, t).

Definition bind {A B} (m : M A) (k : A -> M B) : M B :=
  fun t =>
    match m t with
    | (Value a, t') => k a t'
    | (Thrown msg, t') => (Thrown msg, t')
    | (Replied r, t') => (Replied r, t')
    end.

Definition throw {A} (message : string) : M A := fun t => (Thrown message, t).

(** [res.status(..).json(..); return;] *)
Definition reply {A} (r : Response) : M A := fun t => (Replied r, t).

Definition emit (e : Event) : M unit := fun t => (Value tt, (t ++ [e])%list).

Notation "x <- m ;; k" := (bind m (fun x => k))
  (at level 61, m at next level, right associativity).
Notation "m ;;; k" := (bind m (fun _ => k))
  (at level 61, right associativity).

Definition unless_rejected {A} (verdict : option string) (a : A) : M A :=
  match verdict with
  | Some msg => throw msg
  | None => ret a
  end.

Definition settle {A} (result : string + A) : M A :=
  match result with
  | inl msg => throw msg
  | inr a => ret a
  end.

Section WithRuntime.

Variable rt : Runtime.

(** [base.key] where [base] may be [null] or [undefined]. *)
Definition read (base : JsVal) (key : string) : M JsVal :=
  if nullish base then throw (type_error rt base key)
  else ret (member base key).

(** Converting [v] to a string or a number, as a template literal,
    [JSON.parse] and [*] do before anything else: the engine's TypeError
    when it cannot be done ([lacks_prototype] tells which objects the body
    parser built without a prototype). *)
Definition to_primitive (v : JsVal) : M unit :=
  if cannot_convert (lacks_prototype rt) v
  then throw (conversion_error rt v)
  else ret tt.

(** [Buffer.from(v, "base64")] as a value: the bytes, or the message of
    the error thrown for something that is not a string. *)
Definition decoded (v : JsVal) : string + list byte :=
  match v with
  | JStr s => inr (Base64.decode s)
  | _ => buffer_from_other rt v
  end.

Definition Buffer_from (v : JsVal) : M (list byte) :=
  emit (BufferFrom v) ;;; settle (decoded v).

(** [buf.toString("base64")] *)
Definition Buffer_toString (buf : list byte) : M string :=
  emit (BufferToString buf) ;;; ret (Base64.encode buf).

Definition sharp (buf : list byte) : M Sharp.Instance :=
  emit (SharpInput buf) ;;;
  unless_rejected (sharp_rejects_input rt buf)
    {| Sharp.input := buf; Sharp.resizing := None; Sharp.output := None |}.

Definition sharp_resize (inst : Sharp.Instance) (o : Sharp.ResizeOptions)
  : M Sharp.Instance :=
  emit (SharpResize o) ;;;
  unless_rejected (sharp_rejects_resize rt o)
    {| Sharp.input := Sharp.input inst;
       Sharp.resizing := Some o;
       Sharp.output := Sharp.output inst |}.

Definition sharp_encoder (inst : Sharp.Instance) (e : Sharp.Encoder)
  : M Sharp.Instance :=
  emit (SharpEncoder e) ;;;
  unless_rejected (sharp_rejects_encoder rt e)
    {| Sharp.input := Sharp.input inst;
       Sharp.resizing := Sharp.resizing inst;
       Sharp.output := Some e |}.

Definition metadata (inst : Sharp.Instance) : M (JsVal * JsVal) :=
  emit SharpMetadata ;;; settle (sharp_metadata rt inst).

Definition toBuffer (inst : Sharp.Instance) : M (list byte) :=
  emit SharpToBuffer ;;; settle (sharp_to_buffer rt inst).

End WithRuntime.

(* ===================================================================== *)
(** ** Option mapping and resize planning ([src/server.ts]) *)
(* ===================================================================== *)

(** The object literal passed to [.jpeg(..)] in both compress handlers. *)
Definition jpeg_options (options : JsVal) : Sharp.Jpeg.Options :=
  {| Sharp.Jpeg.quality := or_else (member options "quality") (JNum 75);
     Sharp.Jpeg.progressive := negb (strictly_false (member options "progressive"));
     Sharp.Jpeg.mozjpeg := true |}.

(** The object literal passed to [.webp(..)]. *)
Definition webp_options (options : JsVal) : Sharp.Webp.Options :=
  {| Sharp.Webp.quality := or_else (member options "quality") (JNum 75);
     Sharp.Webp.lossless := strictly_true (member options "lossless");
     Sharp.Webp.nearLossless := strictly_true (member options "near_lossless");
     Sharp.Webp.smartSubsample := negb (strictly_false (member options "use_sharp_yuv"));
     Sharp.Webp.effort := or_else (member options "method") (JNum 4) |}.

(** The object literal passed to [.avif(..)]. *)
Definition avif_options (options : JsVal) : Sharp.Avif.Options :=
  {| Sharp.Avif.quality := or_else (member options "quality") (JNum 50);
     Sharp.Avif.lossless := strictly_true (member options "lossless");
     Sharp.Avif.effort := or_else (member options "effort") (JNum 4) |}.

(** The object literal passed to [.png(..)]. *)
Definition png_options (options : JsVal) : Sharp.Png.Options :=
  {| Sharp.Png.compressionLevel := or_else (member options "level") (JNum 2);
     Sharp.Png.progressive := strictly_true (member options "interlace");
     Sharp.Png.effort := or_else (member options "effort") (JNum 7) |}.

(** [switch (resize.fitMethod)] *)
Definition fit_of (fitMethod : JsVal) : Sharp.Fit :=
  if is_string fitMethod "stretch" then Sharp.fill
  else if is_string fitMethod "contain" then Sharp.inside
  else Sharp.cover.

(** [switch (resize.method)] *)
Definition kernel_of (method : JsVal) : Sharp.Kernel :=
  if is_string method "lanczos3" then Sharp.lanczos3
  else if is_string method "mitchell" then Sharp.mitchell
  else if is_string method "catrom" then Sharp.cubic
  else Sharp.lanczos3.

(** The [resizeOptions] object built when [resize.enabled] holds. *)
Definition resizeOptions (resize : JsVal) : Sharp.ResizeOptions :=
  {| Sharp.width :=
       if truthy (member resize "width") then Some (member resize "width")
       else None;
     Sharp.height :=
       if truthy (member resize "height") then Some (member resize "height")
       else None;
     Sharp.fit :=
       if truthy (member resize "fitMethod")
       then Some (fit_of (member resize "fitMethod"))
       else None;
     Sharp.kernel :=
       if truthy (member resize "method")
       then Some (kernel_of (member resize "method"))
       else None |}.

(** [resize && resize.enabled] *)
Definition resize_requested (resize : JsVal) : bool :=
  truthy resize && truthy (member resize "enabled").

(* ===================================================================== *)
(** ** Requests and the handlers *)
(* ===================================================================== *)

(** What the handlers read of a request.  [req.url] is kept apart: only the
    logger compares it, and only with "/compress". *)
Record Request := {
  x_api_key : option string;
  apiKey : option string;
  body : JsVal;
  file : option (list byte)
}.

(** What became of a handler's promise: a reply was sent, or an error left
    the handler without one. *)
Inductive Settled :=
| Sent (r : Response)
| Escaped (message : string).

Definition try_catch (m : M Response) (handler : string -> M Response)
  : Settled * list Event :=
  match m [] with
  | (Value r, t) => (Sent r, t)
  | (Replied r, t) => (Sent r, t)
  | (Thrown msg, t) =>
      match handler msg t with
      | (Value r, t') => (Sent r, t')
      | (Replied r, t') => (Sent r, t')
      | (Thrown msg', t') => (Escaped msg', t')
      end
  end.

Section Handlers.

Variable rt : Runtime.

Definition template (prefix : string) (v : JsVal) : string :=
  prefix ++ to_string (number_to_string rt) v.

(** [logRequest(req)] of the logger, as far as it can fail: for the URL
    "/compress" and a truthy image it computes
    [req.body.image.length * 0.75], and the multiplication converts the
    length to a number.  What is written to the log is not modelled. *)
Definition logRequest (url : string) (req : Request) : M unit :=
  if truthy (body req) && (url =? "/compress") then
    if truthy (member (body req) "image")
    then to_primitive rt (length_of (member (body req) "image"))
    else ret tt
  else ret tt.

(** [app.get("/health", ..)] *)
Definition get_health : Settled * list Event :=
  (Sent (json 200 (HealthBody "healthy" "image-compressor")), []).

(** [app.post("/info", ..)] *)
Definition post_info (req : Request) : Settled * list Event :=
  try_catch
    (logRequest "/info" req ;;;
     image <- read rt (body req) "image" ;;
     if negb (truthy image)
     then reply (json 400 (ErrorBody "Image data required"))
     else
       imageBuffer <- Buffer_from rt image ;;
       inst <- sharp rt imageBuffer ;;
       md <- metadata rt inst ;;
       ret (json 200 (ImageInfoBody (or_else (fst md) (JNum 0))
                                    (or_else (snd md) (JNum 0)))))
    (fun errorMessage => reply (json 500 (ErrorBody errorMessage))).

(** [if (resize && resize.enabled) { .. sharpInstance.resize(..) }] *)
Definition apply_resize (inst : Sharp.Instance) (resize : JsVal)
  : M Sharp.Instance :=
  if resize_requested resize
  then sharp_resize rt inst (resizeOptions resize)
  else ret inst.

(** The [switch (format)] of [/compress]: the encoder call and the
    [outputFormat] it leaves. *)
Definition compress_switch (inst : Sharp.Instance) (format options : JsVal)
  : M (Sharp.Instance * JsVal) :=
  if is_string format "mozjpeg" || is_string format "jpeg" then
    read rt options "quality" ;;;
    inst' <- sharp_encoder rt inst (Sharp.jpeg (jpeg_options options)) ;;
    ret (inst', JStr "mozjpeg")
  else if is_string format "webp" then
    read rt options "quality" ;;;
    inst' <- sharp_encoder rt inst (Sharp.webp (webp_options options)) ;;
    ret (inst', format)
  else if is_string format "avif" then
    read rt options "quality" ;;;
    inst' <- sharp_encoder rt inst (Sharp.avif (avif_options options)) ;;
    ret (inst', format)
  else if is_string format "oxipng" || is_string format "png" then
    read rt options "level" ;;;
    inst' <- sharp_encoder rt inst (Sharp.png (png_options options)) ;;
    ret (inst', JStr "oxipng")
  else
    to_primitive rt format ;;;
    throw (template "Unsupported format: " format).

(** [app.post("/compress", ..)] on a request whose [req.url] is [url]: the
    route also takes its path followed by a query string or a slash, or in
    other letter case. *)
Definition post_compress_at (url : string) (req : Request)
  : Settled * list Event :=
  try_catch
    (logRequest url req ;;;
     image <- read rt (body req) "image" ;;
     let format := default_to (member (body req) "format") (JStr "mozjpeg") in
     let resize := default_to (member (body req) "resize") JNull in
     let options := or_else (member (body req) "options") (JObj []) in
     if negb (truthy image)
     then reply (json 400 (ErrorBody "Image data required"))
     else
       imageBuffer <- Buffer_from rt image ;;
       inst <- sharp rt imageBuffer ;;
       inst <- apply_resize inst resize ;;
       chosen <- compress_switch inst format options ;;
       outputBuffer <- toBuffer rt (fst chosen) ;;
       base64 <- Buffer_toString outputBuffer ;;
       ret (json 200 (CompressBody base64 (length outputBuffer) (snd chosen))))
    (fun errorMessage =>
       (* logError reads req.body.format before the reply *)
       read rt (body req) "format" ;;;
       reply (json 500 (ErrorBody errorMessage))).

(** [/compress] on a request to the plain path, "/compress". *)
Definition post_compress (req : Request) : Settled * list Event :=
  post_compress_at "/compress" req.

(** The [switch (format)] of [/compress/file]: the encoder call and the
    [contentType] it leaves. *)
Definition compress_file_switch (inst : Sharp.Instance)
    (format options : JsVal) : M (Sharp.Instance * string) :=
  if is_string format "mozjpeg" || is_string format "jpeg" then
    read rt options "quality" ;;;
    inst' <- sharp_encoder rt inst (Sharp.jpeg (jpeg_options options)) ;;
    ret (inst', "image/jpeg")
  else if is_string format "webp" then
    read rt options "quality" ;;;
    inst' <- sharp_encoder rt inst (Sharp.webp (webp_options options)) ;;
    ret (inst', "image/webp")
  else if is_string format "avif" then
    read rt options "quality" ;;;
    inst' <- sharp_encoder rt inst (Sharp.avif (avif_options options)) ;;
    ret (inst', "image/avif")
  else if is_string format "oxipng" || is_string format "png" then
    read rt options "level" ;;;
    inst' <- sharp_encoder rt inst (Sharp.png (png_options options)) ;;
    ret (inst', "image/png")
  else
    to_primitive rt format ;;;
    reply (json 400 (ErrorBody (template "Unsupported format: " format))).

(** [if (body.options) { try { JSON.parse(..) } catch { 400 } }]: the inner
    [catch] also takes the TypeError of a field that cannot be converted to
    the text to parse. *)
Definition parse_options (field : JsVal) : M JsVal :=
  if truthy field then
    if cannot_convert (lacks_prototype rt) field
    then reply (json 400 (ErrorBody "Invalid options JSON"))
    else
      let text := to_string (number_to_string rt) field in
      emit (JsonParse text) ;;;
      match json_parse rt text with
      | Some parsed => ret parsed
      | None => reply (json 400 (ErrorBody "Invalid options JSON"))
      end
  else ret (JObj []).

(** [app.post("/compress/file", ..)], after [upload.single("image")] has
    filled [req.file] and [req.body]. *)
Definition post_compress_file (req : Request) : Settled * list Event :=
  try_catch
    (logRequest "/compress/file" req ;;;
     match file req with
     | None => reply (json 400 (ErrorBody "No file uploaded"))
     | Some buffer =>
         field <- read rt (body req) "format" ;;
         let format := or_else field (JStr "mozjpeg") in
         options <- parse_options (member (body req) "options") ;;
         inst <- sharp rt buffer ;;
         chosen <- compress_file_switch inst format options ;;
         outputBuffer <- toBuffer rt (fst chosen) ;;
         ret (json 200 (BinaryBody (snd chosen) (length outputBuffer)
                                   outputBuffer))
     end)
    (fun errorMessage => reply (json 500 (ErrorBody errorMessage))).

End Handlers.

(* ===================================================================== *)
(** ** The auth gate ([src/middleware/auth.ts]) *)
(* ===================================================================== *)

(** The two environment variables the gate reads. *)
Record Env := {
  env_ENABLE_AUTH : option string;
  env_API_KEY : option string
}.

(** [process.env.API_KEY || 'your-secure-api-key-here'] *)
Definition API_KEY (env : Env) : string :=
  match env_API_KEY env with
  | Some key => if key =? "" then "your-secure-api-key-here" else key
  | None => "your-secure-api-key-here"
  end.

(** A middleware either replies itself or calls [next()]. *)
Inductive Gate :=
| Next (req : Request)
| Halt (r : Response).

Definition validateApiKey (env : Env) (req : Request) : Gate :=
  match x_api_key req with
  | None => Halt (json 401 (ErrorBody "API key is required"))
  | Some key =>
      if key =? "" then Halt (json 401 (ErrorBody "API key is required"))
      else if negb (key =? API_KEY env)
      then Halt (json 403 (ErrorBody "Invalid API key"))
      else Next {| x_api_key := x_api_key req;
                   apiKey := Some key;
                   body := body req;
                   file := file req |}
  end.

(** [process.env.ENABLE_AUTH === 'true'] *)
Definition enableAuth (env : Env) : bool :=
  match env_ENABLE_AUTH env with
  | Some flag => flag =? "true"
  | None => false
  end.

Definition optionalApiKey (env : Env) (req : Request) : Gate :=
  if negb (enableAuth env) then Next req else validateApiKey env req.

(* ===================================================================== *)
(** ** Routes *)
(* ===================================================================== *)

Inductive Route := GET_health | POST_info | POST_compress | POST_compress_file.

Definition handler (rt : Runtime) (route : Route) (req : Request)
  : Settled * list Event :=
  match route with
  | GET_health => get_health
  | POST_info => post_info rt req
  | POST_compress => post_compress rt req
  | POST_compress_file => post_compress_file rt req
  end.

Definition guarded (route : Route) : bool :=
  match route with
  | GET_health => false
  | _ => true
  end.

(** A request travelling through the middleware registered on its route. *)
Definition serve (env : Env) (rt : Runtime) (route : Route) (req : Request)
  : Settled * list Event :=
  if guarded route then
    match optionalApiKey env req with
    | Halt r => (Sent r, [])
    | Next req' => handler rt route req'
    end
  else handler rt route req.

(** A stand-in runtime for concrete runs: the library refuses only an empty
    buffer and hands the input back as the encoded output; [JSON.parse]
    knows the empty object and [null]. *)
Definition stub_runtime : Runtime :=
  {| number_to_string := fun _ => "0";
     type_error := fun _ key => "Cannot read properties (reading '" ++ key ++ "')";
     lacks_prototype := fun _ => false;
     conversion_error := fun _ => "Cannot convert object to primitive value";
     buffer_from_other := fun _ => inl "The first argument must be of type string";
     json_parse := fun s => if s =? "{}" then Some (JObj [])
                            else if s =? "null" then Some JNull else None;
     sharp_rejects_input := fun buf =>
       match buf with [] => Some "Input Buffer is empty" | _ => None end;
     sharp_rejects_resize := fun _ => None;
     sharp_rejects_encoder := fun _ => None;
     sharp_metadata := fun _ => inr (JNum 1, JNum 1);
     sharp_to_buffer := fun inst => inr (Sharp.input inst) |}.

(** The six format names the switches know, and the name [/compress]
    reports for each (the spec's "canonical alias"). *)
Definition supported_format (v : JsVal) : bool :=
  is_string v "mozjpeg" || is_string v "jpeg" || is_string v "webp"
  || is_string v "avif" || is_string v "oxipng" || is_string v "png".

Definition canonical_alias (s : string) : string :=
  if (s =? "jpeg") || (s =? "mozjpeg") then "mozjpeg"
  else if (s =? "png") || (s =? "oxipng") then "oxipng"
  else s.

(* ===================================================================== *)
(** ** Plans, reply shapes and the test client *)
(* ===================================================================== *)

(** The resize options [/compress] hands to the library, if any. *)
Definition planned_resize (resize : JsVal) : option Sharp.ResizeOptions :=
  if resize_requested resize then Some (resizeOptions resize) else None.

(** The encoder call a format selects, as both [switch (format)] statements
    write it; [None] is their [default] case. *)
Definition chosen_encoder (format options : JsVal) : option Sharp.Encoder :=
  if is_string format "mozjpeg" || is_string format "jpeg"
  then Some (Sharp.jpeg (jpeg_options options))
  else if is_string format "webp" then Some (Sharp.webp (webp_options options))
  else if is_string format "avif" then Some (Sharp.avif (avif_options options))
  else if is_string format "oxipng" || is_string format "png"
  then Some (Sharp.png (png_options options))
  else None.

(** The [outputFormat] left by the case that calls an encoder. *)
Definition reported_format (e : Sharp.Encoder) : JsVal :=
  match e with
  | Sharp.jpeg _ => JStr "mozjpeg"
  | Sharp.webp _ => JStr "webp"
  | Sharp.avif _ => JStr "avif"
  | Sharp.png _ => JStr "oxipng"
  end.

(** The [contentType] left by the case that calls an encoder. *)
Definition contentType_of (e : Sharp.Encoder) : string :=
  match e with
  | Sharp.jpeg _ => "image/jpeg"
  | Sharp.webp _ => "image/webp"
  | Sharp.avif _ => "image/avif"
  | Sharp.png _ => "image/png"
  end.

(** [/compress] once the image is known to be present, written over the
    plan: the decoded image, the planned resize and the chosen encoder. *)
Definition compress_planned (rt : Runtime) (image : JsVal)
    (plan : option Sharp.ResizeOptions) (choice : option Sharp.Encoder)
    (format : JsVal) : Settled * list Event :=
  try_catch
    (to_primitive rt (length_of image) ;;;
     imageBuffer <- Buffer_from rt image ;;
     inst <- sharp rt imageBuffer ;;
     inst <- match plan with
             | Some o => sharp_resize rt inst o
             | None => ret inst
             end ;;
     match choice with
     | Some e =>
         inst' <- sharp_encoder rt inst e ;;
         outputBuffer <- toBuffer rt inst' ;;
         base64 <- Buffer_toString outputBuffer ;;
         ret (json 200 (CompressBody base64 (length outputBuffer)
                                     (reported_format e)))
     | None =>
         to_primitive rt format ;;;
         throw (template rt "Unsupported format: " format)
     end)
    (fun errorMessage => reply (json 500 (ErrorBody errorMessage))).

(** Two option bags that answer the same on every key of a list. *)
Definition agree_on (keys : list string) (a b : JsVal) : Prop :=
  forall k, In k keys -> member a k = member b k.

(** A reply whose status fits its body and whose body fits its route. *)
Definition well_formed_reply (route : Route) (r : Response) : Prop :=
  match payload r with
  | ErrorBody _ =>
      (status r = 400 \/ status r = 401 \/ status r = 403 \/ status r = 500)%nat
      /\ route <> GET_health
  | HealthBody _ _ => status r = 200%nat /\ route = GET_health
  | ImageInfoBody _ _ => status r = 200%nat /\ route = POST_info
  | CompressBody _ _ _ => status r = 200%nat /\ route = POST_compress
  | BinaryBody _ _ _ => status r = 200%nat /\ route = POST_compress_file
  end.

(** The body [compressImage] of [test-utils/test-compress.js] posts to
    [/compress]: [{ image, format, options }], plus [resize] when given. *)
Definition requestData (imageBuffer : list byte) (format options resize : JsVal)
  : JsVal :=
  JObj ([("image", JStr (Base64.encode imageBuffer));
         ("format", format);
         ("options", options)]
        ++ (if truthy resize then [("resize", resize)] else []))%list.

(* ===================================================================== *)
(** * Properties *)
(* ===================================================================== *)

Ltac Zify.zify_post_hook ::= Z.to_euclidean_division_equations.

(** ** Base64 round trip *)

Module Base64Facts.

Import Base64.
Local Open Scope N_scope.

(** The test vectors of RFC 4648, section 10. *)
Example encode_f : encode [x66] = "Zg==".
Proof. reflexivity. Qed.

Example encode_fo : encode [x66; x6f] = "Zm8=".
Proof. reflexivity. Qed.

Example encode_foo : encode [x66; x6f; x6f] = "Zm9v".
Proof. reflexivity. Qed.

Example encode_foob : encode [x66; x6f; x6f; x62] = "Zm9vYg==".
Proof. reflexivity. Qed.

(** Blanks are skipped, padding may be missing, URL-safe digits count. *)
Example decode_lenient : decode "Zm9v Yg" = [x66; x6f; x6f; x62].
Proof. reflexivity. Qed.

Example decode_url_safe : decode "-_8=" = decode "+/8=".
Proof. reflexivity. Qed.

Lemma digit_table :
  forallb (fun n => match unbase64 (digit n) with
                    | Some m => N.eqb m n
                    | None => false
                    end)
          (map N.of_nat (seq 0 64)) = true.
Proof. vm_compute. reflexivity. Qed.

Lemma unbase64_digit n : n < 64 -> unbase64 (digit n) = Some n.
Proof.
  intros Hn. pose proof digit_table as T.
  rewrite forallb_forall in T.
  assert (Hin : In n (map N.of_nat (seq 0 64))).
  { apply in_map_iff. exists (N.to_nat n). split; [lia|].
    apply in_seq. lia. }
  specialize (T n Hin).
  destruct (unbase64 (digit n)) as [m|]; [|discriminate].
  apply N.eqb_eq in T. now subst.
Qed.

Lemma byte_of_N_eq n b : n mod 256 = Byte.to_N b -> byte_of_N n = b.
Proof.
  intros H. unfold byte_of_N. rewrite H. now rewrite Byte.of_to_N.
Qed.

Lemma decode_encode_bounded :
  forall (n : nat) (bs : list byte),
    (length bs <= n)%nat -> decode_groups (sextets (encode bs)) = bs.
Proof.
  induction n as [|n IH]; intros bs Hlen.
  - destruct bs; [reflexivity | simpl in Hlen; lia].
  - destruct bs as [|a [|b [|c rest]]]; [reflexivity| | |].
    + pose proof (Byte.to_N_bounded a).
      cbn [encode sextets]. rewrite !unbase64_digit by lia. cbn.
      f_equal. apply byte_of_N_eq. lia.
    + pose proof (Byte.to_N_bounded a). pose proof (Byte.to_N_bounded b).
      cbn [encode sextets]. rewrite !unbase64_digit by lia. cbn.
      f_equal; [|f_equal]; apply byte_of_N_eq; lia.
    + pose proof (Byte.to_N_bounded a). pose proof (Byte.to_N_bounded b).
      pose proof (Byte.to_N_bounded c).
      cbn [encode sextets]. unfold group3.
      rewrite !unbase64_digit by lia.
      cbn [decode_groups]. rewrite IH by (simpl in Hlen; lia).
      f_equal; [|f_equal; [|f_equal]]; apply byte_of_N_eq; lia.
Qed.

(** Decoding what [toString("base64")] wrote gives the buffer back. *)
Lemma decode_encode (bs : list byte) : decode (encode bs) = bs.
Proof. apply (decode_encode_bounded (length bs)). lia. Qed.

End Base64Facts.

(** ** Small facts about values *)

Lemma member_string_not_nullish (v : JsVal) (key s : string) :
  member v key = JStr s -> nullish v = false.
Proof. destruct v; simpl; congruence. Qed.

Lemma member_defined_not_nullish (v : JsVal) (key : string) :
  member v key <> JUndefined -> nullish v = false.
Proof. destruct v; simpl; congruence. Qed.

Lemma truthy_not_nullish (v : JsVal) : truthy v = true -> nullish v = false.
Proof. destruct v; simpl; congruence. Qed.

Lemma or_else_not_nullish (a : JsVal) (fields : list (string * JsVal)) :
  nullish (or_else a (JObj fields)) = false.
Proof.
  unfold or_else. destruct (truthy a) eqn:E; [|reflexivity].
  now apply truthy_not_nullish.
Qed.

Lemma zero_is_falsy (q : Q) : (q == 0)%Q -> truthy (JNum q) = false.
Proof.
  unfold Qeq. simpl. intros H.
  replace (Qnum q) with 0%Z by lia. reflexivity.
Qed.

Lemma is_string_true (v : JsVal) (s : string) :
  is_string v s = true <-> v = JStr s.
Proof.
  destruct v; simpl; split; intros H; try discriminate.
  - apply String.eqb_eq in H. now subst.
  - injection H as ->. apply String.eqb_refl.
Qed.

Lemma is_string_false (v : JsVal) (s : string) :
  is_string v s = false <-> v <> JStr s.
Proof.
  rewrite <- is_string_true. destruct (is_string v s); split; congruence.
Qed.

Lemma API_KEY_not_empty (env : Env) : API_KEY env <> "".
Proof.
  unfold API_KEY. destruct (env_API_KEY env) as [key|]; [|discriminate].
  destruct (key =? "") eqn:E; [discriminate|].
  now apply String.eqb_neq in E.
Qed.

Lemma supported_cases (v : JsVal) :
  supported_format v = true ->
  v = JStr "mozjpeg" \/ v = JStr "jpeg" \/ v = JStr "webp"
  \/ v = JStr "avif" \/ v = JStr "oxipng" \/ v = JStr "png".
Proof.
  unfold supported_format. rewrite !orb_true_iff, !is_string_true. tauto.
Qed.

Lemma unsupported_cases (v : JsVal) :
  supported_format v = false ->
  is_string v "mozjpeg" = false /\ is_string v "jpeg" = false
  /\ is_string v "webp" = false /\ is_string v "avif" = false
  /\ is_string v "oxipng" = false /\ is_string v "png" = false.
Proof.
  unfold supported_format. rewrite !orb_false_iff. tauto.
Qed.

(** ** Running the handlers *)

Ltac unfold_handler :=
  unfold post_compress, post_compress_at, post_compress_file, post_info,
    try_catch, compress_switch, compress_file_switch, apply_resize, parse_options,
    logRequest, to_primitive,
    Buffer_from, Buffer_toString, sharp, sharp_resize, sharp_encoder,
    metadata, toBuffer, read, unless_rejected, settle, template, json;
  unfold bind, ret, throw, reply, emit;
  cbn [String.eqb Ascii.eqb Bool.eqb];
  rewrite ?andb_false_r, ?andb_true_r.

Ltac tidy := cbv beta iota zeta; cbn [fst snd negb orb andb app].

(** Cases no value can be in. *)
Ltac impossible_value :=
  match goal with
  | H1 : truthy ?b = true, H2 : nullish ?b = true |- _ =>
      destruct b; discriminate
  | H1 : truthy ?b = false, H2 : truthy (member ?b _) = true |- _ =>
      destruct b; discriminate
  | H1 : nullish ?b = true, H2 : truthy (member ?b _) = true |- _ =>
      destruct b; discriminate
  end.

(** One branching point of a handler, in program order. *)
Ltac case_step :=
  match goal with
  | |- context [if nullish ?v then _ else _] => destruct (nullish v) eqn:?
  | |- context [if negb (truthy ?v) then _ else _] => destruct (truthy v) eqn:?
  | |- context [if truthy ?v then _ else _] => destruct (truthy v) eqn:?
  | |- context [if cannot_convert ?b ?v then _ else _] =>
      destruct (cannot_convert b v) eqn:?
  | |- context [match decoded ?rt ?v with _ => _ end] =>
      destruct (decoded rt v) eqn:?
  | |- context [match json_parse ?rt ?v with _ => _ end] =>
      destruct (json_parse rt v) eqn:?
  | |- context [match sharp_rejects_input ?rt ?v with _ => _ end] =>
      destruct (sharp_rejects_input rt v) eqn:?
  | |- context [match sharp_metadata ?rt ?v with _ => _ end] =>
      destruct (sharp_metadata rt v) eqn:?
  | |- context [if resize_requested ?v then _ else _] =>
      destruct (resize_requested v) eqn:?
  | |- context [match sharp_rejects_resize ?rt ?v with _ => _ end] =>
      destruct (sharp_rejects_resize rt v) eqn:?
  | |- context [is_string ?v ?s] => destruct (is_string v s) eqn:?
  | |- context [match sharp_rejects_encoder ?rt ?v with _ => _ end] =>
      destruct (sharp_rejects_encoder rt v) eqn:?
  | |- context [match sharp_to_buffer ?rt ?v with _ => _ end] =>
      destruct (sharp_to_buffer rt v) eqn:?
  end.

Ltac run := tidy; repeat (case_step; try impossible_value; tidy).

Ltac name_strings :=
  repeat match goal with
  | H : is_string _ _ = true |- _ => apply is_string_true in H
  end.

Ltac pick_event :=
  repeat match goal with
  | H : _ \/ _ |- _ => destruct H
  | H : False |- _ => destruct H
  | H : SharpEncoder _ = SharpEncoder _ |- _ => injection H as <-
  end.

(** Concrete runs against the stand-in runtime. *)
Example compress_jpeg_run :
  post_compress stub_runtime
    {| x_api_key := None; apiKey := None;
       body := JObj [("image", JStr "TWFu"); ("format", JStr "jpeg");
                     ("options", JObj [("quality", JNum 0)])];
       file := None |}
  = (Sent (json 200 (CompressBody "TWFu" 3 (JStr "mozjpeg"))),
     [BufferFrom (JStr "TWFu"); SharpInput [x4d; x61; x6e];
      SharpEncoder (Sharp.jpeg {| Sharp.Jpeg.quality := JNum 75;
                                  Sharp.Jpeg.progressive := true;
                                  Sharp.Jpeg.mozjpeg := true |});
      SharpToBuffer; BufferToString [x4d; x61; x6e]]).
Proof. reflexivity. Qed.

Example compress_file_null_options_run :
  fst (post_compress_file stub_runtime
         {| x_api_key := None; apiKey := None;
            body := JObj [("format", JStr "png"); ("options", JStr "null")];
            file := Some [x89; x50] |})
  = Sent (json 500 (ErrorBody "Cannot read properties (reading 'level')")).
Proof. reflexivity. Qed.

(** Every encoder call [/compress] makes is the one its switch chooses for
    the request's format, on [req.body.options || {}]. *)
Lemma post_compress_encoder_call
    (rt : Runtime) (req : Request) (e : Sharp.Encoder) :
  In (SharpEncoder e) (snd (post_compress rt req)) ->
  let format := default_to (member (body req) "format") (JStr "mozjpeg") in
  let options := or_else (member (body req) "options") (JObj []) in
  (e = Sharp.jpeg (jpeg_options options)
   /\ (format = JStr "mozjpeg" \/ format = JStr "jpeg"))
  \/ (e = Sharp.webp (webp_options options) /\ format = JStr "webp")
  \/ (e = Sharp.avif (avif_options options) /\ format = JStr "avif")
  \/ (e = Sharp.png (png_options options)
      /\ (format = JStr "oxipng" \/ format = JStr "png")).
Proof.
  pose proof (or_else_not_nullish (member (body req) "options") []) as Hopt.
  unfold_handler. rewrite Hopt.
  run; cbn [snd In]; intros H; name_strings; pick_event;
    try discriminate; tauto.
Qed.

(** Every encoder call [/compress/file] makes is the one its switch chooses
    for the request's format, on the parsed [options] field (or [{}]). *)
Lemma post_compress_file_encoder_call
    (rt : Runtime) (req : Request) (e : Sharp.Encoder) :
  In (SharpEncoder e) (snd (post_compress_file rt req)) ->
  let format := or_else (member (body req) "format") (JStr "mozjpeg") in
  let field := member (body req) "options" in
  exists options,
    ((truthy field = false /\ options = JObj [])
     \/ (truthy field = true
         /\ json_parse rt (to_string (number_to_string rt) field)
            = Some options))
    /\ ((e = Sharp.jpeg (jpeg_options options)
         /\ (format = JStr "mozjpeg" \/ format = JStr "jpeg"))
        \/ (e = Sharp.webp (webp_options options) /\ format = JStr "webp")
        \/ (e = Sharp.avif (avif_options options) /\ format = JStr "avif")
        \/ (e = Sharp.png (png_options options)
            /\ (format = JStr "oxipng" \/ format = JStr "png"))).
Proof.
  unfold_handler. destruct (file req); [|cbn; tauto].
  run; cbn [snd In]; intros H; name_strings; pick_event;
    try discriminate;
    eexists;
    (split; [first [left; split; reflexivity | right; split; reflexivity]
            | tauto]).
Qed.

(** ** Missing input *)

(** C8: a body whose [image] is missing or empty (falsy) makes both [/info]
    and [/compress] reply 400 "Image data required", and the trace of
    library calls is empty: nothing was decoded or encoded. *)
Theorem missing_image_is_rejected (rt : Runtime) (req : Request) :
  nullish (body req) = false ->
  truthy (member (body req) "image") = false ->
  post_info rt req
    = (Sent (json 400 (ErrorBody "Image data required")), [])
  /\ post_compress rt req
    = (Sent (json 400 (ErrorBody "Image data required")), []).
Proof.
  intros Hbody Himage.
  unfold_handler. rewrite Hbody, Himage.
  destruct (truthy (body req)); split; reflexivity.
Qed.

Lemma missing_image_is_rejected_witness :
  let req := {| x_api_key := None; apiKey := None;
                body := JObj [("image", JStr ""); ("format", JStr "webp")];
                file := None |} in
  post_info stub_runtime req
    = (Sent (json 400 (ErrorBody "Image data required")), [])
  /\ post_compress stub_runtime req
    = (Sent (json 400 (ErrorBody "Image data required")), []).
Proof.
  intros req.
  apply (missing_image_is_rejected stub_runtime req); reflexivity.
Defined.

(** C9: [/compress/file] without a file replies 400 "No file uploaded"
    before anything else happens (the trace is empty, so the options were
    not parsed); with a file and an [options] field that is a non-empty
    string [JSON.parse] refuses, it replies 400 "Invalid options JSON". *)
Theorem compress_file_input_checks (rt : Runtime) (req : Request) :
  (file req = None ->
   post_compress_file rt req
     = (Sent (json 400 (ErrorBody "No file uploaded")), []))
  /\ (forall (buffer : list byte) (text : string),
        file req = Some buffer ->
        member (body req) "options" = JStr text ->
        text <> "" ->
        json_parse rt text = None ->
        post_compress_file rt req
          = (Sent (json 400 (ErrorBody "Invalid options JSON")),
             [JsonParse text])).
Proof.
  split.
  - intros Hfile. unfold_handler. rewrite Hfile. reflexivity.
  - intros buffer text Hfile Hopt Hne Hparse.
    pose proof (member_string_not_nullish _ _ _ Hopt) as Hbody.
    apply String.eqb_neq in Hne.
    unfold_handler. rewrite Hfile, Hbody, Hopt.
    cbn [truthy cannot_convert to_string]. rewrite Hne, Hparse. reflexivity.
Qed.

Lemma compress_file_input_checks_witness :
  post_compress_file stub_runtime
    {| x_api_key := None; apiKey := None;
       body := JObj [("options", JStr "{quality:")]; file := None |}
    = (Sent (json 400 (ErrorBody "No file uploaded")), [])
  /\ post_compress_file stub_runtime
       {| x_api_key := None; apiKey := None;
          body := JObj [("options", JStr "{quality:")];
          file := Some [x89; x50] |}
     = (Sent (json 400 (ErrorBody "Invalid options JSON")),
        [JsonParse "{quality:"]).
Proof.
  split.
  - apply (proj1 (compress_file_input_checks stub_runtime _)). reflexivity.
  - apply (proj2 (compress_file_input_checks stub_runtime _) [x89; x50]);
      [reflexivity | reflexivity | discriminate | reflexivity].
Defined.

(** ** The auth gate *)

(** C7, as stated, fails for a header that is present but empty: it differs
    from the configured key, yet the reply is 401 "API key is required"
    and not 403 "Invalid API key". *)
Lemma empty_key_is_answered_401 :
  let env := {| env_ENABLE_AUTH := Some "true"; env_API_KEY := Some "s3cret" |} in
  let req := {| x_api_key := Some ""; apiKey := None;
                body := JObj [("image", JStr "TWFu")]; file := None |} in
  enableAuth env = true
  /\ x_api_key req = Some ""
  /\ "" <> API_KEY env
  /\ serve env stub_runtime POST_compress req
     = (Sent (json 401 (ErrorBody "API key is required")), [])
  /\ serve env stub_runtime POST_compress req
     <> (Sent (json 403 (ErrorBody "Invalid API key")), []).
Proof.
  cbv zeta. repeat split; try reflexivity; discriminate.
Qed.

(** C7, amended: on the three guarded routes, with auth enabled a request
    with no [x-api-key] header or an empty one gets 401 "API key is
    required"; a non-empty key different from the configured one gets 403
    "Invalid API key"; the configured key lets the request through to the
    handler (with [req.apiKey] set); with auth disabled every request goes
    to the handler unchanged. *)
Theorem auth_gate (env : Env) (rt : Runtime) (route : Route) (req : Request) :
  guarded route = true ->
  (enableAuth env = true ->
   x_api_key req = None \/ x_api_key req = Some "" ->
   serve env rt route req
     = (Sent (json 401 (ErrorBody "API key is required")), []))
  /\ (forall key : string,
        enableAuth env = true ->
        x_api_key req = Some key -> key <> "" -> key <> API_KEY env ->
        serve env rt route req
          = (Sent (json 403 (ErrorBody "Invalid API key")), []))
  /\ (enableAuth env = true ->
      x_api_key req = Some (API_KEY env) ->
      serve env rt route req
        = handler rt route {| x_api_key := x_api_key req;
                              apiKey := Some (API_KEY env);
                              body := body req;
                              file := file req |})
  /\ (enableAuth env = false ->
      serve env rt route req = handler rt route req).
Proof.
  intros Hroute. unfold serve, optionalApiKey, validateApiKey.
  rewrite Hroute. repeat split.
  - intros -> [-> | ->]; reflexivity.
  - intros key -> -> Hne Hkey.
    apply String.eqb_neq in Hne, Hkey. rewrite Hne, Hkey. reflexivity.
  - intros -> ->.
    pose proof (API_KEY_not_empty env) as Hne.
    apply String.eqb_neq in Hne. rewrite Hne, String.eqb_refl. reflexivity.
  - intros ->. reflexivity.
Qed.

Lemma auth_gate_witness :
  let env := {| env_ENABLE_AUTH := Some "true"; env_API_KEY := Some "s3cret" |} in
  let req := {| x_api_key := Some "guess"; apiKey := None;
                body := JObj []; file := None |} in
  serve env stub_runtime POST_info req
    = (Sent (json 403 (ErrorBody "Invalid API key")), []).
Proof.
  intros env req.
  apply (proj1 (proj2 (auth_gate env stub_runtime POST_info req eq_refl))
           "guess"); [reflexivity | reflexivity | discriminate | discriminate].
Defined.

(** ** Resize planning *)

(** C4: with [resize.enabled] true the resize call receives exactly the
    planned options.  [fitMethod] "stretch" gives fill and "contain" gives
    inside; any other value gives cover, set explicitly when the value is
    truthy and left to the library's default (cover) when it is absent or
    falsy.  [method] "lanczos3", "mitchell" and "catrom" give lanczos3,
    mitchell and cubic; any other value gives lanczos3 in the same way.
    Width and height are handed over unchanged, and never when absent. *)
Theorem resize_planner_mapping
    (rt : Runtime) (inst : Sharp.Instance) (resize : JsVal) :
  member resize "enabled" = JBool true ->
  let o := resizeOptions resize in
  let fitMethod := member resize "fitMethod" in
  let method := member resize "method" in
  apply_resize rt inst resize = sharp_resize rt inst o
  /\ (fitMethod = JStr "stretch" -> Sharp.fit o = Some Sharp.fill)
  /\ (fitMethod = JStr "contain" -> Sharp.fit o = Some Sharp.inside)
  /\ (fitMethod <> JStr "stretch" -> fitMethod <> JStr "contain" ->
      Sharp.fit_in_effect o = Sharp.cover
      /\ Sharp.fit o = if truthy fitMethod then Some Sharp.cover else None)
  /\ (method = JStr "lanczos3" -> Sharp.kernel o = Some Sharp.lanczos3)
  /\ (method = JStr "mitchell" -> Sharp.kernel o = Some Sharp.mitchell)
  /\ (method = JStr "catrom" -> Sharp.kernel o = Some Sharp.cubic)
  /\ (method <> JStr "lanczos3" -> method <> JStr "mitchell" ->
      method <> JStr "catrom" ->
      Sharp.kernel_in_effect o = Sharp.lanczos3
      /\ Sharp.kernel o = if truthy method then Some Sharp.lanczos3 else None)
  /\ (forall w, Sharp.width o = Some w -> member resize "width" = w /\ w <> JUndefined)
  /\ (forall h, Sharp.height o = Some h -> member resize "height" = h /\ h <> JUndefined)
  /\ (truthy (member resize "width") = true -> Sharp.width o = Some (member resize "width"))
  /\ (truthy (member resize "height") = true -> Sharp.height o = Some (member resize "height")).
Proof.
  intros Henabled o fitMethod method.
  assert (Hreq : resize_requested resize = true).
  { unfold resize_requested. rewrite Henabled.
    destruct resize; simpl in Henabled; try discriminate. reflexivity. }
  subst o. unfold apply_resize. rewrite Hreq.
  unfold resizeOptions, Sharp.fit_in_effect, Sharp.kernel_in_effect.
  fold fitMethod. fold method. cbn [Sharp.fit Sharp.kernel Sharp.width Sharp.height].
  repeat split.
  - intros ->. reflexivity.
  - intros ->. reflexivity.
  - apply is_string_false in H, H0. unfold fit_of. rewrite H, H0.
    destruct (truthy fitMethod); reflexivity.
  - apply is_string_false in H, H0. unfold fit_of. rewrite H, H0. reflexivity.
  - intros ->. reflexivity.
  - intros ->. reflexivity.
  - intros ->. reflexivity.
  - apply is_string_false in H, H0, H1. unfold kernel_of.
    rewrite H, H0, H1. destruct (truthy method); reflexivity.
  - apply is_string_false in H, H0, H1. unfold kernel_of.
    rewrite H, H0, H1. reflexivity.
  - destruct (truthy (member resize "width")); congruence.
  - destruct (truthy (member resize "width")) eqn:E; [|discriminate].
    injection H as <-. intros Hu. rewrite Hu in E. discriminate.
  - destruct (truthy (member resize "height")); congruence.
  - destruct (truthy (member resize "height")) eqn:E; [|discriminate].
    injection H as <-. intros Hu. rewrite Hu in E. discriminate.
  - intros ->. reflexivity.
  - intros ->. reflexivity.
Qed.

Lemma resize_planner_mapping_witness :
  let resize := JObj [("enabled", JBool true); ("width", JNum 800);
                      ("fitMethod", JStr "contain")] in
  Sharp.fit (resizeOptions resize) = Some Sharp.inside
  /\ Sharp.kernel_in_effect (resizeOptions resize) = Sharp.lanczos3
  /\ Sharp.kernel (resizeOptions resize) = None.
Proof.
  intros resize.
  pose proof (resize_planner_mapping stub_runtime
                {| Sharp.input := []; Sharp.resizing := None;
                   Sharp.output := None |} resize eq_refl) as H.
  cbv zeta in H.
  destruct H as (_ & _ & Hcontain & _ & _ & _ & _ & Hother & _).
  split; [apply Hcontain; reflexivity|].
  apply Hother; discriminate.
Defined.

(** ** Encoder options *)

Ltac other_format Hformat :=
  repeat match goal with
  | H : _ /\ _ |- _ => destruct H
  | H : _ \/ _ |- _ => destruct H
  end;
  subst; try reflexivity; try congruence.

(** C5: for format "mozjpeg" or "jpeg" both switches call the JPEG encoder
    with [jpeg_options options], and that is the only encoder call either
    handler makes for such a request; the quality is 75 when
    [options.quality] is not supplied, [progressive] is false only for
    [options.progressive === false], and [mozjpeg] is true. *)
Theorem jpeg_option_mapping (rt : Runtime) (format : JsVal) :
  format = JStr "mozjpeg" \/ format = JStr "jpeg" ->
  (forall inst options,
     nullish options = false ->
     compress_switch rt inst format options
       = (inst' <- sharp_encoder rt inst (Sharp.jpeg (jpeg_options options)) ;;
          ret (inst', JStr "mozjpeg"))
     /\ compress_file_switch rt inst format options
       = (inst' <- sharp_encoder rt inst (Sharp.jpeg (jpeg_options options)) ;;
          ret (inst', "image/jpeg")))
  /\ (forall req e,
        default_to (member (body req) "format") (JStr "mozjpeg") = format ->
        In (SharpEncoder e) (snd (post_compress rt req)) ->
        e = Sharp.jpeg
              (jpeg_options (or_else (member (body req) "options") (JObj []))))
  /\ (forall req e,
        or_else (member (body req) "format") (JStr "mozjpeg") = format ->
        In (SharpEncoder e) (snd (post_compress_file rt req)) ->
        exists options, e = Sharp.jpeg (jpeg_options options))
  /\ (forall options,
        (member options "quality" = JUndefined ->
         Sharp.Jpeg.quality (jpeg_options options) = JNum 75)
        /\ (Sharp.Jpeg.progressive (jpeg_options options) = false
            <-> member options "progressive" = JBool false)
        /\ Sharp.Jpeg.mozjpeg (jpeg_options options) = true).
Proof.
  intros Hformat. split; [|split; [|split]].
  - intros inst options Hoptions.
    unfold compress_switch, compress_file_switch, read. rewrite Hoptions.
    destruct Hformat as [-> | ->]; split; reflexivity.
  - intros req e Hf Hin.
    pose proof (post_compress_encoder_call rt req e Hin) as H.
    cbv zeta in H. rewrite Hf in H. other_format Hformat.
  - intros req e Hf Hin.
    destruct (post_compress_file_encoder_call rt req e Hin)
      as (options & _ & H).
    exists options. rewrite Hf in H. other_format Hformat.
  - intros options. unfold jpeg_options. cbn. repeat split.
    + intros H. rewrite H. reflexivity.
    + destruct (member options "progressive") as [| |[|]| | | |];
        cbn; congruence.
    + destruct (member options "progressive") as [| |[|]| | | |];
        cbn; congruence.
Qed.

Lemma jpeg_option_mapping_witness :
  Sharp.Jpeg.quality (jpeg_options (JObj [("progressive", JBool false)]))
    = JNum 75
  /\ Sharp.Jpeg.progressive (jpeg_options (JObj [("progressive", JBool false)]))
    = false.
Proof.
  pose proof (jpeg_option_mapping stub_runtime (JStr "jpeg")
                (or_intror eq_refl)) as (_ & _ & _ & H).
  destruct (H (JObj [("progressive", JBool false)])) as (Hq & Hp & _).
  split; [apply Hq; reflexivity | apply Hp; reflexivity].
Defined.

(** C6, as stated, fails when the caller supplies [method: 0]: the effort
    handed to the WebP encoder is 4, not the supplied 0. *)
Lemma webp_method_zero_is_replaced :
  let options := JObj [("method", JNum 0)] in
  member options "method" = JNum 0
  /\ Sharp.Webp.effort (webp_options options) = JNum 4
  /\ Sharp.Webp.effort (webp_options options) <> member options "method"
  /\ fst (compress_switch stub_runtime
            {| Sharp.input := [x4d]; Sharp.resizing := None;
               Sharp.output := None |} (JStr "webp") options [])
     = Value ({| Sharp.input := [x4d]; Sharp.resizing := None;
                 Sharp.output :=
                   Some (Sharp.webp {| Sharp.Webp.quality := JNum 75;
                                       Sharp.Webp.lossless := false;
                                       Sharp.Webp.nearLossless := false;
                                       Sharp.Webp.smartSubsample := true;
                                       Sharp.Webp.effort := JNum 4 |}) |},
              JStr "webp").
Proof.
  cbv zeta. repeat split. discriminate.
Qed.

(** C6, amended: for format "webp" both switches call the WebP encoder with
    [webp_options options], and that is the only encoder call either handler
    makes for such a request; quality is [options.quality] when truthy and
    75 otherwise (so 75 when not supplied), [lossless] and [nearLossless]
    are true exactly for [=== true], [smartSubsample] is false only for
    [options.use_sharp_yuv === false], and effort is [options.method] when
    that is truthy (supplied and not 0, empty, false or null) and 4
    otherwise. *)
Theorem webp_option_mapping (rt : Runtime) (options : JsVal) :
  nullish options = false ->
  let o := webp_options options in
  (forall inst,
     compress_switch rt inst (JStr "webp") options
       = (inst' <- sharp_encoder rt inst (Sharp.webp o) ;;
          ret (inst', JStr "webp"))
     /\ compress_file_switch rt inst (JStr "webp") options
       = (inst' <- sharp_encoder rt inst (Sharp.webp o) ;;
          ret (inst', "image/webp")))
  /\ (forall req e,
        default_to (member (body req) "format") (JStr "mozjpeg") = JStr "webp" ->
        or_else (member (body req) "options") (JObj []) = options ->
        In (SharpEncoder e) (snd (post_compress rt req)) ->
        e = Sharp.webp o)
  /\ (forall req e,
        or_else (member (body req) "format") (JStr "mozjpeg") = JStr "webp" ->
        json_parse rt (to_string (number_to_string rt)
                         (member (body req) "options")) = Some options ->
        truthy (member (body req) "options") = true ->
        In (SharpEncoder e) (snd (post_compress_file rt req)) ->
        e = Sharp.webp o)
  /\ Sharp.Webp.quality o
     = (if truthy (member options "quality") then member options "quality"
        else JNum 75)
  /\ (member options "quality" = JUndefined -> Sharp.Webp.quality o = JNum 75)
  /\ (Sharp.Webp.lossless o = true <-> member options "lossless" = JBool true)
  /\ (Sharp.Webp.nearLossless o = true
      <-> member options "near_lossless" = JBool true)
  /\ (Sharp.Webp.smartSubsample o = false
      <-> member options "use_sharp_yuv" = JBool false)
  /\ Sharp.Webp.effort o
     = (if truthy (member options "method") then member options "method"
        else JNum 4).
Proof.
  intros Hoptions o. split; [|split; [|split]].
  - intros inst. unfold compress_switch, compress_file_switch, read.
    rewrite Hoptions. split; reflexivity.
  - intros req e Hf Ho Hin.
    pose proof (post_compress_encoder_call rt req e Hin) as H.
    cbv zeta in H. rewrite Hf, Ho in H. subst o.
    other_format Hf.
  - intros req e Hf Hparse Hfield Hin.
    destruct (post_compress_file_encoder_call rt req e Hin)
      as (parsed & Hfrom & H).
    cbv zeta in Hfrom. rewrite Hf in H. rewrite Hparse, Hfield in Hfrom.
    assert (parsed = options) by (other_format Hf). subst parsed o.
    other_format Hf.
  - subst o. unfold webp_options. cbn.
    repeat split; try (intros H; rewrite H; reflexivity);
      match goal with
      | |- context [member options ?k] =>
          destruct (member options k) as [| |[|]| | | |]; cbn; congruence
      end.
Qed.

Lemma webp_option_mapping_witness :
  Sharp.Webp.effort (webp_options (JObj [("method", JNum 6)])) = JNum 6.
Proof.
  pose proof (webp_option_mapping stub_runtime
                (JObj [("method", JNum 6)]) eq_refl) as H.
  cbv zeta in H. destruct H as (_ & _ & _ & _ & _ & _ & _ & _ & He).
  exact He.
Defined.

(** C10: a numeric option equal to 0 is replaced by the default, as if it
    were absent: quality by 75 (JPEG, WebP) or 50 (AVIF), WebP [method] by
    4, [effort] by 4 (AVIF) or 7 (PNG), PNG [level] by 2; a resize width or
    height of 0 is left out of the resize options. *)
Theorem zero_is_treated_as_absent (options resize : JsVal) (q : Q) :
  (q == 0)%Q ->
  (member options "quality" = JNum q ->
   Sharp.Jpeg.quality (jpeg_options options) = JNum 75
   /\ Sharp.Webp.quality (webp_options options) = JNum 75
   /\ Sharp.Avif.quality (avif_options options) = JNum 50)
  /\ (member options "method" = JNum q ->
      Sharp.Webp.effort (webp_options options) = JNum 4)
  /\ (member options "effort" = JNum q ->
      Sharp.Avif.effort (avif_options options) = JNum 4
      /\ Sharp.Png.effort (png_options options) = JNum 7)
  /\ (member options "level" = JNum q ->
      Sharp.Png.compressionLevel (png_options options) = JNum 2)
  /\ (member resize "width" = JNum q ->
      Sharp.width (resizeOptions resize) = None)
  /\ (member resize "height" = JNum q ->
      Sharp.height (resizeOptions resize) = None).
Proof.
  intros Hq. apply zero_is_falsy in Hq.
  unfold jpeg_options, webp_options, avif_options, png_options,
    resizeOptions, or_else. cbn.
  repeat split; intros;
    match goal with H : member _ _ = JNum q |- _ => rewrite H, Hq end;
    reflexivity.
Qed.

Lemma zero_is_treated_as_absent_witness :
  Sharp.Avif.quality (avif_options (JObj [("quality", JNum 0)])) = JNum 50
  /\ Sharp.width (resizeOptions (JObj [("enabled", JBool true);
                                      ("width", JNum 0)])) = None.
Proof.
  pose proof (zero_is_treated_as_absent
                (JObj [("quality", JNum 0)])
                (JObj [("enabled", JBool true); ("width", JNum 0)])
                0%Q (Qeq_refl 0)) as H.
  destruct H as (Hquality & _ & _ & _ & Hwidth & _).
  split; [apply Hquality; reflexivity | apply Hwidth; reflexivity].
Defined.

(** ** The [/compress] reply *)

(** C1: for a supported format and a valid image (a non-empty base64
    string whose bytes the library opens, resizes as the request asks,
    encodes with the encoder of the format and writes out without error),
    [/compress] replies 200, whatever follows the path in the URL, and the
    [format] field is "mozjpeg" for "mozjpeg" and "jpeg", "oxipng" for
    "oxipng" and "png", and the caller's own string for "webp" and "avif". *)
Theorem compress_reports_canonical_alias
    (rt : Runtime) (url : string) (req : Request) (s text : string) :
  member (body req) "format" = JStr s ->
  supported_format (JStr s) = true ->
  member (body req) "image" = JStr text ->
  text <> "" ->
  sharp_rejects_input rt (Base64.decode text) = None ->
  (resize_requested (default_to (member (body req) "resize") JNull) = true ->
   sharp_rejects_resize rt
     (resizeOptions (default_to (member (body req) "resize") JNull)) = None) ->
  (forall e,
     chosen_encoder (JStr s) (or_else (member (body req) "options") (JObj []))
       = Some e ->
     sharp_rejects_encoder rt e = None
     /\ exists out,
          sharp_to_buffer rt
            {| Sharp.input := Base64.decode text;
               Sharp.resizing :=
                 planned_resize (default_to (member (body req) "resize") JNull);
               Sharp.output := Some e |} = inr out) ->
  exists out t,
    post_compress_at rt url req
    = (Sent (json 200 (CompressBody (Base64.encode out) (length out)
                                    (JStr (canonical_alias s)))), t).
Proof.
  intros Hformat Hsup Himage Hne Hinput Hresize Hlibrary.
  pose proof (member_string_not_nullish _ _ _ Hformat) as Hbody.
  pose proof (or_else_not_nullish (member (body req) "options") []) as Hopt.
  apply String.eqb_neq in Hne.
  apply supported_cases in Hsup.
  unfold planned_resize in Hlibrary.
  unfold_handler. unfold decoded.
  rewrite Hbody, Himage, Hformat, Hopt.
  cbn [truthy length_of cannot_convert negb default_to]. rewrite Hne.
  destruct (resize_requested (default_to (member (body req) "resize") JNull))
    eqn:Hrequested;
    [specialize (Hresize eq_refl); rewrite Hresize | clear Hresize];
    destruct (truthy (body req) && (url =? "/compress")); tidy;
    rewrite Hinput; tidy;
    destruct Hsup as [H|[H|[H|[H|[H|H]]]]]; injection H as ->;
    destruct (Hlibrary _ eq_refl) as [Hencoder [out Hout]];
    cbn [is_string String.eqb Ascii.eqb Bool.eqb orb canonical_alias];
    tidy; rewrite Hencoder; tidy;
    cbn [Sharp.input Sharp.resizing Sharp.output]; rewrite Hout; tidy;
    exists out; eexists; reflexivity.
Qed.

Lemma compress_reports_canonical_alias_witness :
  let request format :=
    {| x_api_key := None; apiKey := None;
       body := JObj [("image", JStr "TWFu"); ("format", JStr format);
                     ("resize", JObj [("enabled", JBool true);
                                      ("width", JNum 100)])];
       file := None |} in
  let reports url format alias :=
    exists out t,
      post_compress_at stub_runtime url (request format)
      = (Sent (json 200 (CompressBody (Base64.encode out) (length out)
                                      (JStr alias))), t) in
  reports "/compress" "mozjpeg" "mozjpeg"
  /\ reports "/compress" "jpeg" "mozjpeg"
  /\ reports "/compress" "webp" "webp"
  /\ reports "/compress" "avif" "avif"
  /\ reports "/compress" "oxipng" "oxipng"
  /\ reports "/compress" "png" "oxipng"
  /\ reports "/compress?v=2" "png" "oxipng".
Proof.
  intros request reports.
  split; [|split; [|split; [|split; [|split; [|split]]]]].
  - apply (compress_reports_canonical_alias stub_runtime "/compress"
             (request "mozjpeg") "mozjpeg" "TWFu");
      try reflexivity;
      [discriminate | intros e _; split; [reflexivity | eexists; reflexivity]].
  - apply (compress_reports_canonical_alias stub_runtime "/compress"
             (request "jpeg") "jpeg" "TWFu");
      try reflexivity;
      [discriminate | intros e _; split; [reflexivity | eexists; reflexivity]].
  - apply (compress_reports_canonical_alias stub_runtime "/compress"
             (request "webp") "webp" "TWFu");
      try reflexivity;
      [discriminate | intros e _; split; [reflexivity | eexists; reflexivity]].
  - apply (compress_reports_canonical_alias stub_runtime "/compress"
             (request "avif") "avif" "TWFu");
      try reflexivity;
      [discriminate | intros e _; split; [reflexivity | eexists; reflexivity]].
  - apply (compress_reports_canonical_alias stub_runtime "/compress"
             (request "oxipng") "oxipng" "TWFu");
      try reflexivity;
      [discriminate | intros e _; split; [reflexivity | eexists; reflexivity]].
  - apply (compress_reports_canonical_alias stub_runtime "/compress"
             (request "png") "png" "TWFu");
      try reflexivity;
      [discriminate | intros e _; split; [reflexivity | eexists; reflexivity]].
  - apply (compress_reports_canonical_alias stub_runtime "/compress?v=2"
             (request "png") "png" "TWFu");
      try reflexivity;
      [discriminate | intros e _; split; [reflexivity | eexists; reflexivity]].
Defined.

(** C2: in a 200 reply of [/compress], [size] is the length of the buffer
    the library produced for the pipeline built on the request's image,
    [image] is that buffer in base64, and decoding [image] gives the same
    bytes back, [size] of them. *)
Theorem compress_size_is_decoded_length
    (rt : Runtime) (req : Request)
    (image : string) (size : nat) (format : JsVal) (t : list Event) :
  post_compress rt req
    = (Sent (json 200 (CompressBody image size format)), t) ->
  exists inst outputBuffer,
    decoded rt (member (body req) "image") = inr (Sharp.input inst)
    /\ sharp_to_buffer rt inst = inr outputBuffer
    /\ image = Base64.encode outputBuffer
    /\ size = length outputBuffer
    /\ Base64.decode image = outputBuffer
    /\ length (Base64.decode image) = size.
Proof.
  pose proof (or_else_not_nullish (member (body req) "options") []) as Hopt.
  unfold_handler. rewrite Hopt.
  run; intros H; try discriminate; injection H as <- <- <- <-;
    (do 2 eexists; split; [|split; [eassumption|]]);
    try rewrite Base64Facts.decode_encode; auto.
Qed.

Lemma compress_size_is_decoded_length_witness :
  length (Base64.decode "TWFu") = 3%nat.
Proof.
  destruct (compress_size_is_decoded_length stub_runtime
              {| x_api_key := None; apiKey := None;
                 body := JObj [("image", JStr "TWFu"); ("format", JStr "webp")];
                 file := None |}
              "TWFu" 3 (JStr "webp")
              [BufferFrom (JStr "TWFu"); SharpInput [x4d; x61; x6e];
               SharpEncoder (Sharp.webp (webp_options (JObj [])));
               SharpToBuffer; BufferToString [x4d; x61; x6e]]
              eq_refl)
    as (inst & outputBuffer & _ & _ & _ & _ & _ & Hlen).
  exact Hlen.
Defined.

(** ** Unsupported formats *)

(** C3, as stated, fails on both routes.  On [/compress] the image check
    comes first: format "bmp" without an image is answered 400 "Image data
    required", not 500.  On [/compress/file] an empty format string is not
    one of the six names, yet it is replaced by "mozjpeg" and the upload is
    encoded. *)
Lemma unsupported_format_is_not_always_reported :
  supported_format (JStr "bmp") = false
  /\ post_compress stub_runtime
       {| x_api_key := None; apiKey := None;
          body := JObj [("format", JStr "bmp")]; file := None |}
     = (Sent (json 400 (ErrorBody "Image data required")), [])
  /\ supported_format (JStr "") = false
  /\ post_compress_file stub_runtime
       {| x_api_key := None; apiKey := None;
          body := JObj [("format", JStr "")]; file := Some [x89; x50] |}
     = (Sent (json 200 (BinaryBody "image/jpeg" 2 [x89; x50])),
        [SharpInput [x89; x50];
         SharpEncoder (Sharp.jpeg (jpeg_options (JObj [])));
         SharpToBuffer]).
Proof. repeat split. Qed.

(** C3, amended: a format that is supplied, can be converted to a string
    (every string can) and is not one of the six names makes [/compress]
    reply 500 "Unsupported format: <format>", whatever follows the path in
    the URL, when the request carries an image whose length can be
    converted to a number (every string's can), the image decodes and the
    library accepts the buffer and the resize options; such a format, when
    non-empty, makes [/compress/file] reply 400 with the same message when a
    file is present, the options are well-formed and the library accepts
    the buffer. *)
Theorem unsupported_format_replies
    (rt : Runtime) (req : Request) (format : JsVal) :
  member (body req) "format" = format ->
  supported_format format = false ->
  cannot_convert (lacks_prototype rt) format = false ->
  (forall (url : string) (imageBuffer : list byte),
     format <> JUndefined ->
     truthy (member (body req) "image") = true ->
     cannot_convert (lacks_prototype rt)
       (length_of (member (body req) "image")) = false ->
     decoded rt (member (body req) "image") = inr imageBuffer ->
     sharp_rejects_input rt imageBuffer = None ->
     (resize_requested (default_to (member (body req) "resize") JNull) = true ->
      sharp_rejects_resize rt
        (resizeOptions (default_to (member (body req) "resize") JNull)) = None) ->
     fst (post_compress_at rt url req)
     = Sent (json 500 (ErrorBody (template rt "Unsupported format: " format))))
  /\ (forall buffer : list byte,
        truthy format = true ->
        file req = Some buffer ->
        (truthy (member (body req) "options") = true ->
         cannot_convert (lacks_prototype rt) (member (body req) "options")
           = false
         /\ json_parse rt (to_string (number_to_string rt)
                             (member (body req) "options")) <> None) ->
        sharp_rejects_input rt buffer = None ->
        fst (post_compress_file rt req)
        = Sent (json 400 (ErrorBody (template rt "Unsupported format: " format)))).
Proof.
  intros Hformat Hunsupported Hconverts. split.
  - intros url imageBuffer Hdefined Himage Hlength Hdecoded Hinput Hresize.
    assert (Hbody : nullish (body req) = false).
    { apply (member_defined_not_nullish _ "format"). congruence. }
    assert (Hdefault : default_to (member (body req) "format") (JStr "mozjpeg")
                       = format).
    { rewrite Hformat. destruct format; try reflexivity. congruence. }
    apply unsupported_cases in Hunsupported.
    destruct Hunsupported as (H1 & H2 & H3 & H4 & H5 & H6).
    unfold_handler.
    rewrite Hbody, Himage, Hlength, Hdecoded, Hdefault, H1, H2, H3, H4, H5, H6,
      Hconverts.
    destruct (truthy (body req) && (url =? "/compress")); tidy;
      rewrite Hinput; tidy;
      (destruct (resize_requested _) eqn:Hrequested;
       [rewrite (Hresize eq_refl)|]); reflexivity.
  - intros buffer Htruthy Hfile Hoptions Hinput.
    assert (Hbody : nullish (body req) = false).
    { apply (member_defined_not_nullish _ "format"). rewrite Hformat.
      intros ->. discriminate. }
    apply unsupported_cases in Hunsupported.
    destruct Hunsupported as (H1 & H2 & H3 & H4 & H5 & H6).
    unfold_handler. rewrite Hfile, Hbody, Hformat. tidy.
    unfold or_else. rewrite Htruthy, H1, H2, H3, H4, H5, H6, Hconverts. tidy.
    destruct (truthy (member (body req) "options")) eqn:Hfield; tidy.
    + destruct (Hoptions eq_refl) as [Hfine Hparsed]. rewrite Hfine.
      destruct (json_parse rt _); [|congruence].
      tidy. rewrite Hinput. reflexivity.
    + rewrite Hinput. reflexivity.
Qed.

Lemma unsupported_format_replies_witness :
  let req :=
    {| x_api_key := None; apiKey := None;
       body := JObj [("image", JStr "TWFu"); ("format", JStr "bmp");
                     ("options", JStr "{}");
                     ("resize", JObj [("enabled", JBool true);
                                      ("width", JNum 100)])];
       file := Some [x89; x50] |} in
  fst (post_compress_at stub_runtime "/compress" req)
  = Sent (json 500 (ErrorBody "Unsupported format: bmp"))
  /\ fst (post_compress_file stub_runtime req)
     = Sent (json 400 (ErrorBody "Unsupported format: bmp")).
Proof.
  intros req.
  pose proof (unsupported_format_replies stub_runtime req (JStr "bmp")
                eq_refl eq_refl eq_refl) as [Hjson Hfile].
  split.
  - apply (Hjson "/compress" [x4d; x61; x6e]);
      [discriminate | reflexivity | reflexivity | reflexivity | reflexivity
      | intros _; reflexivity].
  - apply (Hfile [x89; x50]);
      [reflexivity | reflexivity
      | intros _; split; [reflexivity | discriminate] | reflexivity].
Defined.

(* ===================================================================== *)
(** * Further properties of the handlers *)
(* ===================================================================== *)

Ltac pick_member :=
  repeat match goal with
  | H : _ \/ _ |- _ => destruct H
  | H : False |- _ => destruct H
  end.

Lemma encode_truthy (bs : list byte) :
  truthy (JStr (Base64.encode bs))
  = match bs with [] => false | _ => true end.
Proof. destruct bs as [|a [|b [|c rest]]]; reflexivity. Qed.

Lemma resize_requested_object (v : JsVal) :
  resize_requested v = true ->
  exists fields, v = JObj fields /\ truthy (lookup "enabled" fields) = true.
Proof.
  unfold resize_requested. destruct v; cbn; try discriminate;
    try (rewrite andb_false_r; discriminate).
  intros H. eauto.
Qed.

(** A 200 reply of [/compress], read backwards: what was decoded, planned,
    chosen and produced, and the calls made, in order. *)
Lemma post_compress_success
    (rt : Runtime) (req : Request)
    (image : string) (size : nat) (reported : JsVal) (t : list Event) :
  post_compress rt req
    = (Sent (json 200 (CompressBody image size reported)), t) ->
  let format := default_to (member (body req) "format") (JStr "mozjpeg") in
  let options := or_else (member (body req) "options") (JObj []) in
  let resize := default_to (member (body req) "resize") JNull in
  exists buf e out,
    decoded rt (member (body req) "image") = inr buf
    /\ chosen_encoder format options = Some e
    /\ sharp_to_buffer rt {| Sharp.input := buf;
                             Sharp.resizing := planned_resize resize;
                             Sharp.output := Some e |} = inr out
    /\ image = Base64.encode out
    /\ size = length out
    /\ reported = reported_format e
    /\ t = ([BufferFrom (member (body req) "image"); SharpInput buf]
            ++ match planned_resize resize with
               | Some o => [SharpResize o]
               | None => []
               end
            ++ [SharpEncoder e; SharpToBuffer; BufferToString out])%list.
Proof.
  pose proof (or_else_not_nullish (member (body req) "options") []) as Hopt.
  unfold_handler. unfold planned_resize, chosen_encoder. rewrite Hopt.
  run; intros H; try discriminate; injection H as <- <- <- <-;
    name_strings;
    do 3 eexists; (split; [reflexivity|]); (split; [reflexivity|]);
    (split; [eassumption|]); repeat split; assumption.
Qed.

(** [/compress] with a body and an image is the run of its plan. *)
Lemma post_compress_planned (rt : Runtime) (req : Request) :
  nullish (body req) = false ->
  truthy (member (body req) "image") = true ->
  post_compress rt req
  = compress_planned rt (member (body req) "image")
      (planned_resize (default_to (member (body req) "resize") JNull))
      (chosen_encoder (default_to (member (body req) "format") (JStr "mozjpeg"))
                      (or_else (member (body req) "options") (JObj [])))
      (default_to (member (body req) "format") (JStr "mozjpeg")).
Proof.
  intros Hbody Himage.
  pose proof (or_else_not_nullish (member (body req) "options") []) as Hopt.
  unfold compress_planned, planned_resize, chosen_encoder. unfold_handler.
  rewrite Hbody, Himage, Hopt. tidy.
  run; name_strings;
    repeat match goal with H : _ = JStr _ |- _ => rewrite H end; reflexivity.
Qed.

Lemma chosen_encoder_none (format options : JsVal) :
  chosen_encoder format options = None <-> supported_format format = false.
Proof.
  unfold chosen_encoder, supported_format.
  destruct (is_string format "mozjpeg"), (is_string format "jpeg"),
    (is_string format "webp"), (is_string format "avif"),
    (is_string format "oxipng"), (is_string format "png"); cbn;
    split; congruence.
Qed.

Lemma handler_replies_well_formed
    (rt : Runtime) (route : Route) (req : Request) (r : Response)
    (t : list Event) :
  handler rt route req = (Sent r, t) -> well_formed_reply route r.
Proof.
  pose proof (or_else_not_nullish (member (body req) "options") []) as Hopt.
  unfold well_formed_reply.
  destruct route; cbn [handler]; unfold get_health; unfold_handler.
  - intros H. injection H as <- <-. cbn. auto.
  - run; intros H; try discriminate; injection H as <- <-; cbn;
      repeat split; auto; discriminate.
  - rewrite Hopt.
    run; intros H; try discriminate; injection H as <- <-; cbn;
      repeat split; auto; discriminate.
  - destruct (file req).
    + run; intros H; try discriminate; injection H as <- <-; cbn;
        repeat split; auto; discriminate.
    + cbn. intros H. injection H as <- <-. cbn. split; [auto | discriminate].
Qed.

Lemma handler_answers
    (rt : Runtime) (route : Route) (req : Request) :
  nullish (body req) = false ->
  exists r t, handler rt route req = (Sent r, t).
Proof.
  intros Hbody.
  pose proof (or_else_not_nullish (member (body req) "options") []) as Hopt.
  destruct route; cbn [handler]; unfold get_health;
    try (do 2 eexists; reflexivity);
    unfold_handler; rewrite ?Hbody, ?Hopt;
    try (destruct (file req));
    run; do 2 eexists; reflexivity.
Qed.

(** What [next()] is called with. *)
Lemma optionalApiKey_next (env : Env) (req req' : Request) :
  optionalApiKey env req = Next req' ->
  body req' = body req /\ file req' = file req
  /\ x_api_key req' = x_api_key req
  /\ (if enableAuth env
      then x_api_key req = Some (API_KEY env)
           /\ apiKey req' = Some (API_KEY env)
      else req' = req).
Proof.
  unfold optionalApiKey, validateApiKey.
  destruct (enableAuth env); cbn [negb].
  - destruct (x_api_key req) as [key|] eqn:Hkey; [|discriminate].
    destruct (key =? "") eqn:He; [discriminate|].
    destruct (key =? API_KEY env) eqn:Hk; cbn [negb]; [|discriminate].
    apply String.eqb_eq in Hk. subst key.
    intros H. injection H as <-. cbn. auto.
  - intros H. injection H as <-. auto.
Qed.

(** What the gate answers itself. *)
Lemma optionalApiKey_halt (env : Env) (req : Request) (r : Response) :
  optionalApiKey env req = Halt r ->
  enableAuth env = true
  /\ x_api_key req <> Some (API_KEY env)
  /\ (r = json 401 (ErrorBody "API key is required")
      \/ r = json 403 (ErrorBody "Invalid API key")).
Proof.
  unfold optionalApiKey, validateApiKey.
  destruct (enableAuth env); cbn [negb]; [|discriminate].
  intros Hgate. split; [reflexivity|]. revert Hgate.
  destruct (x_api_key req) as [key|].
  - destruct (key =? "") eqn:He.
    + apply String.eqb_eq in He. subst key. intros H. injection H as <-.
      split; [|auto]. intros Hsame. injection Hsame as Hsame.
      now apply (API_KEY_not_empty env).
    + destruct (key =? API_KEY env) eqn:Hk; cbn [negb]; [discriminate|].
      apply String.eqb_neq in Hk. intros H. injection H as <-.
      split; [congruence | auto].
  - intros H. injection H as <-. split; [discriminate | auto].
Qed.

(** ** Requests without a body *)

(** X1: when [req.body] is [undefined] or [null], [/info] answers 500 with
    the engine's TypeError for reading [image] and [/compress/file] (given a
    file) answers 500 with the one for reading [format]; [/compress] sends no
    reply at all, because its [catch] block reads [req.body.format] again and
    throws.  No library call is made in any of the three. *)
Theorem handlers_without_body (rt : Runtime) (req : Request) :
  nullish (body req) = true ->
  post_info rt req
    = (Sent (json 500 (ErrorBody (type_error rt (body req) "image"))), [])
  /\ post_compress rt req
    = (Escaped (type_error rt (body req) "format"), [])
  /\ (forall buffer, file req = Some buffer ->
      post_compress_file rt req
        = (Sent (json 500 (ErrorBody (type_error rt (body req) "format"))), [])).
Proof.
  intros Hbody.
  assert (Hfalsy : truthy (body req) = false).
  { destruct (body req); cbn in Hbody; try discriminate; reflexivity. }
  unfold_handler. rewrite Hbody, Hfalsy.
  split; [reflexivity | split; [reflexivity|]].
  intros buffer ->. reflexivity.
Qed.

Lemma handlers_without_body_witness :
  let req := {| x_api_key := None; apiKey := None; body := JUndefined;
                file := Some [x89; x50] |} in
  post_info stub_runtime req
    = (Sent (json 500 (ErrorBody "Cannot read properties (reading 'image')")), [])
  /\ post_compress stub_runtime req
    = (Escaped "Cannot read properties (reading 'format')", [])
  /\ post_compress_file stub_runtime req
    = (Sent (json 500 (ErrorBody "Cannot read properties (reading 'format')")), []).
Proof.
  intros req.
  destruct (handlers_without_body stub_runtime req eq_refl) as (Hi & Hc & Hf).
  split; [exact Hi | split; [exact Hc | exact (Hf [x89; x50] eq_refl)]].
Defined.

(** X2: with a body present every handler sends a reply, and every reply
    the server sends is well formed: an error body comes with status 400,
    401, 403 or 500 and never from [/health]; every other body comes with
    status 200 from its own route. *)
Theorem replies_are_well_formed
    (env : Env) (rt : Runtime) (route : Route) (req : Request) :
  (nullish (body req) = false ->
   exists r t, serve env rt route req = (Sent r, t))
  /\ (forall r t, serve env rt route req = (Sent r, t) ->
                  well_formed_reply route r).
Proof.
  split.
  - intros Hbody. unfold serve.
    destruct (guarded route); [|now apply handler_answers].
    destruct (optionalApiKey env req) as [req'|halt] eqn:Hgate; [|eauto].
    apply handler_answers.
    destruct (optionalApiKey_next _ _ _ Hgate) as (-> & _). exact Hbody.
  - intros r t. unfold serve.
    destruct (guarded route) eqn:Hguard;
      [|apply handler_replies_well_formed].
    destruct (optionalApiKey env req) as [req'|halt] eqn:Hgate;
      [apply handler_replies_well_formed|].
    intros H. injection H as <- <-.
    assert (Hroute : route <> GET_health) by (intros ->; discriminate).
    destruct (optionalApiKey_halt _ _ _ Hgate) as (_ & _ & [-> | ->]);
      cbn; auto.
Qed.

Lemma replies_are_well_formed_witness :
  well_formed_reply POST_compress
    (json 200 (CompressBody "TWFu" 3 (JStr "mozjpeg"))).
Proof.
  apply (proj2 (replies_are_well_formed
                  {| env_ENABLE_AUTH := None; env_API_KEY := None |}
                  stub_runtime POST_compress
                  {| x_api_key := None; apiKey := None;
                     body := JObj [("image", JStr "TWFu")]; file := None |})
           _ [BufferFrom (JStr "TWFu"); SharpInput [x4d; x61; x6e];
              SharpEncoder (Sharp.jpeg (jpeg_options (JObj [])));
              SharpToBuffer; BufferToString [x4d; x61; x6e]]).
  reflexivity.
Defined.

(** ** What a reply tells about the work done *)

(** X3: a 200 reply of [/info] comes from exactly three calls in this order:
    the image is decoded, the library opens the bytes, and its metadata is
    read; each reported dimension is the library's value when that is
    truthy and the number 0 otherwise, so never [undefined]. *)
Theorem info_reply
    (rt : Runtime) (req : Request) (w h : JsVal) (t : list Event) :
  post_info rt req = (Sent (json 200 (ImageInfoBody w h)), t) ->
  exists buf mw mh,
    decoded rt (member (body req) "image") = inr buf
    /\ sharp_rejects_input rt buf = None
    /\ sharp_metadata rt {| Sharp.input := buf; Sharp.resizing := None;
                            Sharp.output := None |} = inr (mw, mh)
    /\ w = (if truthy mw then mw else JNum 0)
    /\ h = (if truthy mh then mh else JNum 0)
    /\ w <> JUndefined /\ h <> JUndefined
    /\ t = [BufferFrom (member (body req) "image"); SharpInput buf;
            SharpMetadata].
Proof.
  unfold_handler.
  run; intros H; try discriminate; injection H as <- <- <-.
  destruct p as [mw mh]. exists l, mw, mh. unfold or_else. cbn [fst snd].
  repeat split; auto.
  - destruct (truthy mw) eqn:E; [intros ->|]; discriminate.
  - destruct (truthy mh) eqn:E; [intros ->|]; discriminate.
Qed.

Lemma info_reply_witness :
  exists buf mw mh,
    decoded stub_runtime (JStr "TWFu") = inr buf
    /\ sharp_rejects_input stub_runtime buf = None
    /\ sharp_metadata stub_runtime
         {| Sharp.input := buf; Sharp.resizing := None;
            Sharp.output := None |} = inr (mw, mh)
    /\ JNum 1 = (if truthy mw then mw else JNum 0)
    /\ JNum 1 = (if truthy mh then mh else JNum 0)
    /\ JNum 1 <> JUndefined /\ JNum 1 <> JUndefined
    /\ [BufferFrom (JStr "TWFu"); SharpInput [x4d; x61; x6e]; SharpMetadata]
       = [BufferFrom (JStr "TWFu"); SharpInput buf; SharpMetadata].
Proof.
  exact (info_reply stub_runtime
           {| x_api_key := None; apiKey := None;
              body := JObj [("image", JStr "TWFu")]; file := None |}
           (JNum 1) (JNum 1)
           [BufferFrom (JStr "TWFu"); SharpInput [x4d; x61; x6e]; SharpMetadata]
           eq_refl).
Defined.

(** X4: a 200 reply of [/compress] comes from one pipeline: the decoded
    image, the planned resize (only when requested), and the encoder the
    format selects on [req.body.options || {}]; the calls happen in that
    order, the image is the library's output in base64, [size] its length
    and [format] the name the encoder's case reports. *)
Theorem compress_success_pipeline
    (rt : Runtime) (req : Request)
    (image : string) (size : nat) (reported : JsVal) (t : list Event) :
  post_compress rt req
    = (Sent (json 200 (CompressBody image size reported)), t) ->
  let format := default_to (member (body req) "format") (JStr "mozjpeg") in
  let options := or_else (member (body req) "options") (JObj []) in
  let resize := default_to (member (body req) "resize") JNull in
  exists buf e out,
    decoded rt (member (body req) "image") = inr buf
    /\ chosen_encoder format options = Some e
    /\ sharp_to_buffer rt {| Sharp.input := buf;
                             Sharp.resizing := planned_resize resize;
                             Sharp.output := Some e |} = inr out
    /\ image = Base64.encode out
    /\ size = length out
    /\ reported = reported_format e
    /\ t = ([BufferFrom (member (body req) "image"); SharpInput buf]
            ++ match planned_resize resize with
               | Some o => [SharpResize o]
               | None => []
               end
            ++ [SharpEncoder e; SharpToBuffer; BufferToString out])%list.
Proof. exact (post_compress_success rt req image size reported t). Qed.

Lemma compress_success_pipeline_witness :
  exists buf e out,
    decoded stub_runtime (JStr "TWFu") = inr buf
    /\ chosen_encoder (JStr "png") (JObj [("level", JNum 9)]) = Some e
    /\ sharp_to_buffer stub_runtime
         {| Sharp.input := buf;
            Sharp.resizing :=
              planned_resize (JObj [("enabled", JBool true);
                                    ("width", JNum 2)]);
            Sharp.output := Some e |} = inr out
    /\ "TWFu" = Base64.encode out
    /\ 3%nat = length out
    /\ JStr "oxipng" = reported_format e.
Proof.
  destruct (compress_success_pipeline stub_runtime
              {| x_api_key := None; apiKey := None;
                 body := JObj [("image", JStr "TWFu"); ("format", JStr "png");
                               ("options", JObj [("level", JNum 9)]);
                               ("resize", JObj [("enabled", JBool true);
                                                ("width", JNum 2)])];
                 file := None |}
              "TWFu" 3 (JStr "oxipng")
              [BufferFrom (JStr "TWFu"); SharpInput [x4d; x61; x6e];
               SharpResize (resizeOptions (JObj [("enabled", JBool true);
                                                 ("width", JNum 2)]));
               SharpEncoder (Sharp.png (png_options (JObj [("level", JNum 9)])));
               SharpToBuffer; BufferToString [x4d; x61; x6e]]
              eq_refl)
    as (buf & e & out & H1 & H2 & H3 & H4 & H5 & H6 & _).
  exists buf, e, out. repeat split; assumption.
Defined.

(** X5: the message of a 500 reply of [/compress] is never made up: it is
    the message of the step that failed (logging the image size, for the
    URL "/compress" and an image whose length cannot be converted to a
    number; decoding a non-string image; the library refusing the buffer,
    the resize options or the encoder options, or producing the output) or,
    for a format outside the six names, "Unsupported format: <format>", or
    the engine's TypeError when that format cannot be converted to a
    string. *)
Theorem compress_error_is_verbatim
    (rt : Runtime) (url : string) (req : Request) (msg : string)
    (t : list Event) :
  post_compress_at rt url req = (Sent (json 500 (ErrorBody msg)), t) ->
  let image := member (body req) "image" in
  let format := default_to (member (body req) "format") (JStr "mozjpeg") in
  let options := or_else (member (body req) "options") (JObj []) in
  let resize := default_to (member (body req) "resize") JNull in
  (url = "/compress"
   /\ cannot_convert (lacks_prototype rt) (length_of image) = true
   /\ msg = conversion_error rt (length_of image))
  \/ decoded rt image = inl msg
  \/ (exists buf, decoded rt image = inr buf
                  /\ sharp_rejects_input rt buf = Some msg)
  \/ (resize_requested resize = true
      /\ sharp_rejects_resize rt (resizeOptions resize) = Some msg)
  \/ (exists e, chosen_encoder format options = Some e
                /\ sharp_rejects_encoder rt e = Some msg)
  \/ (exists inst, sharp_to_buffer rt inst = inl msg)
  \/ (supported_format format = false
      /\ cannot_convert (lacks_prototype rt) format = true
      /\ msg = conversion_error rt format)
  \/ (supported_format format = false
      /\ cannot_convert (lacks_prototype rt) format = false
      /\ msg = template rt "Unsupported format: " format).
Proof.
  pose proof (or_else_not_nullish (member (body req) "options") []) as Hopt.
  unfold_handler. unfold chosen_encoder, supported_format. rewrite Hopt.
  destruct (String.eqb_spec url "/compress") as [Hurl | Hurl];
    rewrite ?andb_false_r, ?andb_true_r;
    run; intros H; try discriminate; injection H as <- <-;
    first
      [ left; solve [auto]
      | right; left; reflexivity
      | right; right; left; solve [eauto]
      | right; right; right; left; solve [auto]
      | right; right; right; right; left; solve [eauto]
      | right; right; right; right; right; left; solve [eauto]
      | right; right; right; right; right; right; left; solve [auto]
      | right; right; right; right; right; right; right; solve [auto] ].
Qed.

Lemma compress_error_is_verbatim_witness :
  cannot_convert (lacks_prototype stub_runtime)
    (length_of (JObj [("length", JObj [("toString", JNull)])])) = true
  /\ "Cannot convert object to primitive value"
     = conversion_error stub_runtime
         (length_of (JObj [("length", JObj [("toString", JNull)])])).
Proof.
  destruct (compress_error_is_verbatim stub_runtime "/compress"
              {| x_api_key := None; apiKey := None;
                 body := JObj [("image",
                                JObj [("length", JObj [("toString", JNull)])])];
                 file := None |}
              "Cannot convert object to primitive value" [] eq_refl)
    as [(_ & H) | [H | [(buf & H & _) | [[H _] | [(e & _ & H)
        | [(inst & H) | [(H & _) | (H & _)]]]]]]];
    try discriminate.
  exact H.
Defined.

(** X6: a 200 reply of [/compress/file] comes from one pipeline on the
    uploaded bytes, never resized: the options are the parsed [options]
    field (or [{}] when the field is falsy), the encoder is the one the
    format selects, the body is the library's output, [Content-Length] its
    length and [Content-Type] the type of the encoder's case. *)
Theorem compress_file_success_pipeline
    (rt : Runtime) (req : Request)
    (contentType : string) (contentLength : nat) (data : list byte)
    (t : list Event) :
  post_compress_file rt req
    = (Sent (json 200 (BinaryBody contentType contentLength data)), t) ->
  let format := or_else (member (body req) "format") (JStr "mozjpeg") in
  let field := member (body req) "options" in
  exists buffer options e,
    file req = Some buffer
    /\ (if truthy field
        then json_parse rt (to_string (number_to_string rt) field)
             = Some options
        else options = JObj [])
    /\ chosen_encoder format options = Some e
    /\ sharp_to_buffer rt {| Sharp.input := buffer;
                             Sharp.resizing := None;
                             Sharp.output := Some e |} = inr data
    /\ contentType = contentType_of e
    /\ contentLength = length data
    /\ t = ((if truthy field
             then [JsonParse (to_string (number_to_string rt) field)]
             else [])
            ++ [SharpInput buffer; SharpEncoder e; SharpToBuffer])%list.
Proof.
  unfold_handler. unfold chosen_encoder.
  destruct (file req) as [buffer|]; [|cbn; discriminate].
  run; intros H; try discriminate; injection H as <- <- <- <-;
    do 3 eexists; (split; [reflexivity|]); (split; [reflexivity|]);
    (split; [reflexivity|]); (split; [eassumption|]); repeat split.
Qed.

Lemma compress_file_success_pipeline_witness :
  exists buffer options e,
    Some [x89; x50] = Some buffer
    /\ json_parse stub_runtime "{}" = Some options
    /\ chosen_encoder (JStr "avif") options = Some e
    /\ "image/avif" = contentType_of e.
Proof.
  destruct (compress_file_success_pipeline stub_runtime
              {| x_api_key := None; apiKey := None;
                 body := JObj [("format", JStr "avif"); ("options", JStr "{}");
                               ("resize", JObj [("enabled", JBool true)])];
                 file := Some [x89; x50] |}
              "image/avif" 2 [x89; x50]
              [JsonParse "{}"; SharpInput [x89; x50];
               SharpEncoder (Sharp.avif (avif_options (JObj [])));
               SharpToBuffer]
              eq_refl)
    as (buffer & options & e & H1 & H2 & H3 & _ & H5 & _).
  exists buffer, options, e. repeat split; assumption.
Defined.

(** X7: calls a handler never makes.  [/info] only decodes, opens and reads
    metadata; [/compress] never reads metadata and never parses JSON;
    [/compress/file] never reads metadata, never resizes (a [resize] field
    is ignored) and never touches base64. *)
Theorem handler_trace_alphabet (rt : Runtime) (req : Request) (e : Event) :
  (In e (snd (post_info rt req)) ->
   (exists v, e = BufferFrom v) \/ (exists buf, e = SharpInput buf)
   \/ e = SharpMetadata)
  /\ (In e (snd (post_compress rt req)) ->
      e <> SharpMetadata /\ forall s, e <> JsonParse s)
  /\ (In e (snd (post_compress_file rt req)) ->
      e <> SharpMetadata
      /\ (forall o, e <> SharpResize o)
      /\ (forall v, e <> BufferFrom v)
      /\ (forall buf, e <> BufferToString buf)).
Proof.
  pose proof (or_else_not_nullish (member (body req) "options") []) as Hopt.
  split; [|split].
  - unfold_handler.
    run; cbn [snd In]; intros H; pick_member; subst; eauto.
  - unfold_handler. rewrite Hopt.
    run; cbn [snd In]; intros H; pick_member; subst;
      split; try intros ?; discriminate.
  - unfold_handler. destruct (file req); [|cbn; tauto].
    run; cbn [snd In]; intros H; pick_member; subst;
      repeat split; try intros ?; discriminate.
Qed.

Lemma handler_trace_alphabet_witness :
  SharpInput [x89; x50] <> SharpMetadata
  /\ SharpInput [x89; x50]
     <> SharpResize (resizeOptions (JObj [("enabled", JBool true);
                                          ("width", JNum 2)])).
Proof.
  destruct (proj2 (proj2 (handler_trace_alphabet stub_runtime
              {| x_api_key := None; apiKey := None;
                 body := JObj [("resize", JObj [("enabled", JBool true);
                                                ("width", JNum 2)])];
                 file := Some [x89; x50] |}
              (SharpInput [x89; x50])))
              (or_introl eq_refl))
    as (Hmeta & Hresize & _).
  split; [exact Hmeta | apply Hresize].
Defined.

(** X8: [/compress] calls [resize] only when [resize] is an object whose
    [enabled] is truthy (any truthy value, not only [true]), and then with
    exactly the planned options. *)
Theorem resize_only_when_requested
    (rt : Runtime) (req : Request) (o : Sharp.ResizeOptions) :
  In (SharpResize o) (snd (post_compress rt req)) ->
  let resize := default_to (member (body req) "resize") JNull in
  o = resizeOptions resize
  /\ exists fields,
       resize = JObj fields /\ truthy (lookup "enabled" fields) = true.
Proof.
  pose proof (or_else_not_nullish (member (body req) "options") []) as Hopt.
  unfold_handler. rewrite Hopt.
  run; cbn [snd In]; intros H; pick_member; try discriminate;
    injection H as <-;
    (split; [reflexivity | apply resize_requested_object; assumption]).
Qed.

Lemma resize_only_when_requested_witness :
  exists fields,
    JObj [("enabled", JStr "false"); ("height", JNum 5)] = JObj fields
    /\ truthy (lookup "enabled" fields) = true.
Proof.
  refine (proj2 (resize_only_when_requested stub_runtime
            {| x_api_key := None; apiKey := None;
               body := JObj [("image", JStr "TWFu");
                             ("resize", JObj [("enabled", JStr "false");
                                              ("height", JNum 5)])];
               file := None |}
            (resizeOptions (JObj [("enabled", JStr "false");
                                  ("height", JNum 5)])) _)).
  cbn. auto.
Defined.

(** ** Encoder options for AVIF and PNG *)

(** X9: for format "avif" both switches call the AVIF encoder with
    [avif_options options]: quality is [options.quality] when truthy and 50
    otherwise, [lossless] is true exactly for [options.lossless === true],
    and effort is [options.effort] when truthy and 4 otherwise; [/compress]
    reports "avif" and [/compress/file] answers with image/avif. *)
Theorem avif_option_mapping
    (rt : Runtime) (inst : Sharp.Instance) (options : JsVal) :
  nullish options = false ->
  let o := avif_options options in
  compress_switch rt inst (JStr "avif") options
    = (inst' <- sharp_encoder rt inst (Sharp.avif o) ;;
       ret (inst', JStr "avif"))
  /\ compress_file_switch rt inst (JStr "avif") options
    = (inst' <- sharp_encoder rt inst (Sharp.avif o) ;;
       ret (inst', "image/avif"))
  /\ Sharp.Avif.quality o
     = (if truthy (member options "quality") then member options "quality"
        else JNum 50)
  /\ (Sharp.Avif.lossless o = true <-> member options "lossless" = JBool true)
  /\ Sharp.Avif.effort o
     = (if truthy (member options "effort") then member options "effort"
        else JNum 4).
Proof.
  intros Hoptions o.
  unfold compress_switch, compress_file_switch, read. rewrite Hoptions.
  subst o. unfold avif_options. cbn.
  repeat split;
    match goal with
    | |- context [member options ?k] =>
        destruct (member options k) as [| |[|]| | | |]; cbn; congruence
    end.
Qed.

Lemma avif_option_mapping_witness :
  Sharp.Avif.quality (avif_options (JObj [("lossless", JNum 1)])) = JNum 50
  /\ Sharp.Avif.lossless (avif_options (JObj [("lossless", JNum 1)])) <> true.
Proof.
  pose proof (avif_option_mapping stub_runtime
                {| Sharp.input := []; Sharp.resizing := None;
                   Sharp.output := None |}
                (JObj [("lossless", JNum 1)]) eq_refl) as H.
  cbv zeta in H. destruct H as (_ & _ & Hq & Hl & _).
  split; [exact Hq|]. intros Ht. apply Hl in Ht. discriminate.
Defined.

(** X10: for format "oxipng" or "png" both switches call the PNG encoder
    with [png_options options]: the compression level is [options.level]
    when truthy and 2 otherwise, [progressive] is true exactly for
    [options.interlace === true], and effort is [options.effort] when truthy
    and 7 otherwise; [/compress] reports "oxipng" and [/compress/file]
    answers with image/png. *)
Theorem png_option_mapping
    (rt : Runtime) (inst : Sharp.Instance) (format options : JsVal) :
  format = JStr "oxipng" \/ format = JStr "png" ->
  nullish options = false ->
  let o := png_options options in
  compress_switch rt inst format options
    = (inst' <- sharp_encoder rt inst (Sharp.png o) ;;
       ret (inst', JStr "oxipng"))
  /\ compress_file_switch rt inst format options
    = (inst' <- sharp_encoder rt inst (Sharp.png o) ;;
       ret (inst', "image/png"))
  /\ Sharp.Png.compressionLevel o
     = (if truthy (member options "level") then member options "level"
        else JNum 2)
  /\ (Sharp.Png.progressive o = true
      <-> member options "interlace" = JBool true)
  /\ Sharp.Png.effort o
     = (if truthy (member options "effort") then member options "effort"
        else JNum 7).
Proof.
  intros Hformat Hoptions o.
  unfold compress_switch, compress_file_switch, read. rewrite Hoptions.
  subst o. unfold png_options. cbn.
  repeat split; try (destruct Hformat as [-> | ->]; reflexivity);
    match goal with
    | |- context [member options ?k] =>
        destruct (member options k) as [| |[|]| | | |]; cbn; congruence
    end.
Qed.

Lemma png_option_mapping_witness :
  Sharp.Png.compressionLevel (png_options (JObj [("level", JNum 6)])) = JNum 6
  /\ Sharp.Png.effort (png_options (JObj [("level", JNum 6)])) = JNum 7.
Proof.
  pose proof (png_option_mapping stub_runtime
                {| Sharp.input := []; Sharp.resizing := None;
                   Sharp.output := None |}
                (JStr "png") (JObj [("level", JNum 6)])
                (or_intror eq_refl) eq_refl) as H.
  cbv zeta in H. destruct H as (_ & _ & Hl & _ & He).
  split; [exact Hl | exact He].
Defined.

(** ** What a request's outcome depends on *)

(** X11: only the keys a mapping names are read.  Two option bags that agree
    on quality and progressive give the same JPEG options; on quality,
    lossless, near_lossless, use_sharp_yuv and method the same WebP options;
    on quality, lossless and effort the same AVIF options; on level,
    interlace and effort the same PNG options; two resize objects that agree
    on width, height, fitMethod and method give the same resize options.
    Every other key is ignored. *)
Theorem only_named_options_are_read (a b : JsVal) :
  (agree_on ["quality"; "progressive"] a b ->
   jpeg_options a = jpeg_options b)
  /\ (agree_on ["quality"; "lossless"; "near_lossless"; "use_sharp_yuv";
                "method"] a b ->
      webp_options a = webp_options b)
  /\ (agree_on ["quality"; "lossless"; "effort"] a b ->
      avif_options a = avif_options b)
  /\ (agree_on ["level"; "interlace"; "effort"] a b ->
      png_options a = png_options b)
  /\ (agree_on ["width"; "height"; "fitMethod"; "method"] a b ->
      resizeOptions a = resizeOptions b).
Proof.
  unfold agree_on, jpeg_options, webp_options, avif_options, png_options,
    resizeOptions.
  repeat split; intros H;
    repeat match goal with
    | |- context [member a ?k] => rewrite (H k) by (cbn; tauto)
    end; reflexivity.
Qed.

Lemma only_named_options_are_read_witness :
  webp_options (JObj [("lossless", JBool true); ("nearLossless", JBool true);
                      ("effort", JNum 6)])
  = webp_options (JObj [("lossless", JBool true)]).
Proof.
  apply (proj1 (proj2 (only_named_options_are_read
                         (JObj [("lossless", JBool true);
                                ("nearLossless", JBool true);
                                ("effort", JNum 6)])
                         (JObj [("lossless", JBool true)])))).
  intros k Hk. cbn in Hk.
  destruct Hk as [<- | [<- | [<- | [<- | [<- | []]]]]]; reflexivity.
Defined.

(** X12: the outcome of [/compress] depends on the body only through the
    image, the planned resize and the chosen encoder (and, for a format
    outside the six names, the format itself): two requests that agree on
    these get the same reply after the same library calls.  So "jpeg" and
    "mozjpeg", "png" and "oxipng", an absent and a "mozjpeg" format, an
    absent and a disabled resize, and option bags that differ only in keys
    the encoder does not read or in falsy values are all interchangeable. *)
Theorem compress_depends_on_plan (rt : Runtime) (a b : Request) :
  let format r := default_to (member (body r) "format") (JStr "mozjpeg") in
  let options r := or_else (member (body r) "options") (JObj []) in
  let resize r := default_to (member (body r) "resize") JNull in
  nullish (body a) = false -> nullish (body b) = false ->
  member (body a) "image" = member (body b) "image" ->
  planned_resize (resize a) = planned_resize (resize b) ->
  chosen_encoder (format a) (options a) = chosen_encoder (format b) (options b) ->
  (supported_format (format a) = false -> format a = format b) ->
  post_compress rt a = post_compress rt b.
Proof.
  intros format options resize Ha Hb Himage Hplan Hchoice Hformat.
  subst format options resize. cbv beta in *.
  destruct (truthy (member (body a) "image")) eqn:Hta.
  - rewrite !post_compress_planned by congruence.
    rewrite <- Himage, <- Hplan, <- Hchoice.
    set (fa := default_to (member (body a) "format") (JStr "mozjpeg")) in *.
    destruct (chosen_encoder fa _) eqn:He; [reflexivity|].
    rewrite Hformat; [reflexivity|].
    now apply chosen_encoder_none in He.
  - assert (Htb : truthy (member (body b) "image") = false) by congruence.
    unfold_handler. rewrite Ha, Hb, Hta, Htb.
    destruct (truthy (body a)), (truthy (body b)); reflexivity.
Qed.

Lemma compress_depends_on_plan_witness :
  post_compress stub_runtime
    {| x_api_key := None; apiKey := None;
       body := JObj [("image", JStr "TWFu"); ("format", JStr "jpeg");
                     ("options", JObj [("quality", JNum 0);
                                       ("effort", JNum 9)]);
                     ("resize", JObj [("enabled", JBool false);
                                      ("width", JNum 100)])];
       file := None |}
  = post_compress stub_runtime
      {| x_api_key := None; apiKey := None;
         body := JObj [("image", JStr "TWFu")]; file := None |}.
Proof.
  apply (compress_depends_on_plan stub_runtime); try reflexivity.
  discriminate.
Defined.

(** ** Options that parse to [null] *)

(** X13: when the [options] field of [/compress/file] is a value that can
    be converted to a string and parses to [null], the switch fails on its
    first read of the options: a supported format gets 500 with the
    engine's TypeError (for reading [quality], or [level] for PNG) and no
    encoder is called, while a format outside the six names still gets 400
    "Unsupported format", unless that format cannot be converted to a
    string, in which case the reply is 500 with the engine's TypeError for
    the conversion. *)
Theorem null_options
    (rt : Runtime) (req : Request) (buffer : list byte) (format : JsVal) :
  file req = Some buffer ->
  or_else (member (body req) "format") (JStr "mozjpeg") = format ->
  truthy (member (body req) "options") = true ->
  cannot_convert (lacks_prototype rt) (member (body req) "options") = false ->
  json_parse rt (to_string (number_to_string rt) (member (body req) "options"))
    = Some JNull ->
  sharp_rejects_input rt buffer = None ->
  post_compress_file rt req
  = (Sent (if is_string format "mozjpeg" || is_string format "jpeg"
              || is_string format "webp" || is_string format "avif"
           then json 500 (ErrorBody (type_error rt JNull "quality"))
           else if is_string format "oxipng" || is_string format "png"
           then json 500 (ErrorBody (type_error rt JNull "level"))
           else if cannot_convert (lacks_prototype rt) format
           then json 500 (ErrorBody (conversion_error rt format))
           else json 400 (ErrorBody (template rt "Unsupported format: " format))),
     [JsonParse (to_string (number_to_string rt) (member (body req) "options"));
      SharpInput buffer]).
Proof.
  intros Hfile Hformat Hfield Hconv Hparse Hinput.
  assert (Hbody : nullish (body req) = false).
  { apply (member_defined_not_nullish _ "options"). intros H.
    rewrite H in Hfield. discriminate. }
  unfold_handler. rewrite Hfile, Hbody, Hformat, Hfield, Hconv, Hparse. tidy.
  rewrite Hinput. tidy.
  destruct (is_string format "mozjpeg"), (is_string format "jpeg"),
    (is_string format "webp"), (is_string format "avif"),
    (is_string format "oxipng"), (is_string format "png");
    try reflexivity.
  destruct (cannot_convert (lacks_prototype rt) format); reflexivity.
Qed.

Lemma null_options_witness :
  post_compress_file stub_runtime
    {| x_api_key := None; apiKey := None;
       body := JObj [("format", JStr "png"); ("options", JStr "null")];
       file := Some [x89; x50] |}
  = (Sent (json 500 (ErrorBody "Cannot read properties (reading 'level')")),
     [JsonParse "null"; SharpInput [x89; x50]]).
Proof.
  exact (null_options stub_runtime
           {| x_api_key := None; apiKey := None;
              body := JObj [("format", JStr "png"); ("options", JStr "null")];
              file := Some [x89; x50] |}
           [x89; x50] (JStr "png") eq_refl eq_refl eq_refl eq_refl eq_refl
           eq_refl).
Defined.

(** ** More on the auth gate *)

(** X14: the gate is sound in both directions.  When it calls [next()], the
    body, the file and the header are untouched, and either auth is off and
    the request is unchanged, or the header is exactly the configured key,
    which is stored in [req.apiKey].  When it answers itself, auth is on,
    the header is not the configured key, the reply is the 401 or the 403
    reply, and the route's handler makes no call. *)
Theorem auth_gate_is_sound
    (env : Env) (rt : Runtime) (route : Route) (req : Request) :
  (forall req', optionalApiKey env req = Next req' ->
     body req' = body req /\ file req' = file req
     /\ x_api_key req' = x_api_key req
     /\ (if enableAuth env
         then x_api_key req = Some (API_KEY env)
              /\ apiKey req' = Some (API_KEY env)
         else req' = req))
  /\ (forall r, optionalApiKey env req = Halt r ->
        enableAuth env = true
        /\ x_api_key req <> Some (API_KEY env)
        /\ (r = json 401 (ErrorBody "API key is required")
            \/ r = json 403 (ErrorBody "Invalid API key"))
        /\ (guarded route = true -> serve env rt route req = (Sent r, []))).
Proof.
  split.
  - intros req'. apply optionalApiKey_next.
  - intros r Hgate.
    destruct (optionalApiKey_halt _ _ _ Hgate) as (Hauth & Hkey & Hreply).
    repeat split; auto.
    intros Hroute. unfold serve. rewrite Hroute, Hgate. reflexivity.
Qed.

Lemma auth_gate_is_sound_witness :
  let env := {| env_ENABLE_AUTH := Some "true"; env_API_KEY := Some "s3cret" |} in
  let req := {| x_api_key := Some "s3cret"; apiKey := None;
                body := JObj [("image", JStr "TWFu")]; file := None |} in
  x_api_key req = Some (API_KEY env)
  /\ apiKey {| x_api_key := Some "s3cret"; apiKey := Some "s3cret";
               body := JObj [("image", JStr "TWFu")]; file := None |}
     = Some (API_KEY env).
Proof.
  intros env req.
  destruct (proj1 (auth_gate_is_sound env stub_runtime POST_info req)
              {| x_api_key := Some "s3cret"; apiKey := Some "s3cret";
                 body := JObj [("image", JStr "TWFu")]; file := None |}
              eq_refl) as (_ & _ & _ & H).
  exact H.
Defined.

(** X15: with auth enabled and [API_KEY] unset or empty, the gate does not
    close: the key written in the source, "your-secure-api-key-here", is the
    configured key and opens every guarded route. *)
Theorem unset_key_falls_back_to_default
    (env : Env) (rt : Runtime) (route : Route) (req : Request) :
  enableAuth env = true ->
  env_API_KEY env = None \/ env_API_KEY env = Some "" ->
  guarded route = true ->
  x_api_key req = Some "your-secure-api-key-here" ->
  serve env rt route req
  = handler rt route {| x_api_key := x_api_key req;
                        apiKey := Some "your-secure-api-key-here";
                        body := body req; file := file req |}.
Proof.
  intros Hauth Hkey Hroute Hheader.
  unfold serve, optionalApiKey, validateApiKey, API_KEY.
  rewrite Hroute, Hauth, Hheader.
  destruct Hkey as [-> | ->]; reflexivity.
Qed.

Lemma unset_key_falls_back_to_default_witness :
  serve {| env_ENABLE_AUTH := Some "true"; env_API_KEY := Some "" |}
    stub_runtime POST_info
    {| x_api_key := Some "your-secure-api-key-here"; apiKey := None;
       body := JObj [("image", JStr "TWFu")]; file := None |}
  = (Sent (json 200 (ImageInfoBody (JNum 1) (JNum 1))),
     [BufferFrom (JStr "TWFu"); SharpInput [x4d; x61; x6e]; SharpMetadata]).
Proof.
  rewrite (unset_key_falls_back_to_default
             {| env_ENABLE_AUTH := Some "true"; env_API_KEY := Some "" |}
             stub_runtime POST_info
             {| x_api_key := Some "your-secure-api-key-here"; apiKey := None;
                body := JObj [("image", JStr "TWFu")]; file := None |}
             eq_refl (or_intror eq_refl) eq_refl eq_refl).
  reflexivity.
Defined.

(** ** Base64 across the wire *)

(** X16: the test client sends the file's bytes in base64 and the server
    decodes them back: for a non-empty file the library is opened exactly
    once, on exactly the file's bytes; an empty file encodes to the empty
    string, which the server takes for a missing image (400). *)
Theorem client_image_reaches_library
    (rt : Runtime) (req : Request) (imageBuffer : list byte)
    (format options resize : JsVal) :
  body req = requestData imageBuffer format options resize ->
  (imageBuffer = [] ->
   post_compress rt req
     = (Sent (json 400 (ErrorBody "Image data required")), []))
  /\ (imageBuffer <> [] ->
      decoded rt (member (body req) "image") = inr imageBuffer
      /\ (forall buf, In (SharpInput buf) (snd (post_compress rt req)) ->
                      buf = imageBuffer)
      /\ In (SharpInput imageBuffer) (snd (post_compress rt req))).
Proof.
  intros Hbody.
  pose proof (or_else_not_nullish (member (body req) "options") []) as Hopt.
  pose proof (encode_truthy imageBuffer) as Ht.
  revert Hopt. unfold_handler. rewrite Hbody. unfold requestData, decoded.
  cbn [app member lookup String.eqb Ascii.eqb Bool.eqb nullish]. intros Hopt.
  rewrite Hopt, Ht, Base64Facts.decode_encode.
  cbn [truthy length_of cannot_convert].
  split.
  - intros ->. reflexivity.
  - intros Hne. destruct imageBuffer as [|b0 rest]; [congruence|].
    cbn [negb]. split; [reflexivity|]. split.
    + intros buf. run; cbn [snd In]; intros H; pick_member;
        try discriminate; injection H as <-; reflexivity.
    + run; cbn [snd In]; tauto.
Qed.

Lemma client_image_reaches_library_witness :
  In (SharpInput [x89; x50; x4e; x47])
     (snd (post_compress stub_runtime
             {| x_api_key := None; apiKey := None;
                body := requestData [x89; x50; x4e; x47] (JStr "webp")
                          (JObj [("quality", JNum 85)]) JNull;
                file := None |})).
Proof.
  refine (proj2 (proj2 (proj2 (client_image_reaches_library stub_runtime
            {| x_api_key := None; apiKey := None;
               body := requestData [x89; x50; x4e; x47] (JStr "webp")
                         (JObj [("quality", JNum 85)]) JNull;
               file := None |}
            [x89; x50; x4e; x47] (JStr "webp") (JObj [("quality", JNum 85)])
            JNull eq_refl) _))).
  discriminate.
Defined.

(** X17: feeding the [image] of a 200 reply of [/compress] to [/info] makes
    the library inspect exactly the bytes it produced: [/info] answers 400
    when that output was empty, and otherwise opens the output buffer and
    reports its metadata (or the library's error). *)
Theorem info_inspects_compress_output
    (rt : Runtime) (req probe : Request)
    (image : string) (size : nat) (format : JsVal) (t : list Event) :
  post_compress rt req
    = (Sent (json 200 (CompressBody image size format)), t) ->
  member (body probe) "image" = JStr image ->
  (size = 0%nat ->
   post_info rt probe
     = (Sent (json 400 (ErrorBody "Image data required")), []))
  /\ (size <> 0%nat ->
      exists outputBuffer inst,
        sharp_to_buffer rt inst = inr outputBuffer
        /\ length outputBuffer = size
        /\ post_info rt probe
           = match sharp_rejects_input rt outputBuffer with
             | Some msg =>
                 (Sent (json 500 (ErrorBody msg)),
                  [BufferFrom (JStr image); SharpInput outputBuffer])
             | None =>
                 (match sharp_metadata rt
                          {| Sharp.input := outputBuffer;
                             Sharp.resizing := None;
                             Sharp.output := None |} with
                  | inl msg => Sent (json 500 (ErrorBody msg))
                  | inr (w, h) =>
                      Sent (json 200 (ImageInfoBody (or_else w (JNum 0))
                                                    (or_else h (JNum 0))))
                  end,
                  [BufferFrom (JStr image); SharpInput outputBuffer;
                   SharpMetadata])
             end).
Proof.
  intros Hcompress Hprobe.
  destruct (post_compress_success rt req image size format t Hcompress)
    as (buf & e & out & _ & _ & Hout & Himage & Hsize & _).
  pose proof (member_string_not_nullish _ _ _ Hprobe) as Hbody.
  pose proof (encode_truthy out) as Ht. rewrite <- Himage in Ht.
  assert (Hdecode : Base64.decode image = out).
  { rewrite Himage. apply Base64Facts.decode_encode. }
  unfold_handler. unfold decoded. rewrite Hbody, Hprobe, Ht, Hdecode.
  split.
  - intros Hz. destruct out; [reflexivity | cbn in Hsize; congruence].
  - intros Hnz. eexists out, _. split; [exact Hout|]. split; [congruence|].
    destruct out as [|b0 rest]; [cbn in Hsize; congruence|]. cbn [negb].
    run; try reflexivity. destruct p. reflexivity.
Qed.

Lemma info_inspects_compress_output_witness :
  exists outputBuffer inst,
    sharp_to_buffer stub_runtime inst = inr outputBuffer
    /\ length outputBuffer = 3%nat.
Proof.
  destruct (proj2 (info_inspects_compress_output stub_runtime
              {| x_api_key := None; apiKey := None;
                 body := JObj [("image", JStr "TWFu")]; file := None |}
              {| x_api_key := None; apiKey := None;
                 body := JObj [("image", JStr "TWFu")]; file := None |}
              "TWFu" 3 (JStr "mozjpeg")
              [BufferFrom (JStr "TWFu"); SharpInput [x4d; x61; x6e];
               SharpEncoder (Sharp.jpeg (jpeg_options (JObj [])));
               SharpToBuffer; BufferToString [x4d; x61; x6e]]
              eq_refl eq_refl))
    as (out & inst & H1 & H2 & _); [discriminate|].
  exists out, inst. split; assumption.
Defined.
